(** * py-liant: the Pyramid CRUD view and JSON renderer of [py_liant/pyramid.py]

    A shallow embedding of [CRUDView] (filter and order registries, query
    composition, pagination, the transactional get/list/insert/update/delete
    operations) and of [pyramid_json_renderer_factory], followed by the
    properties the specification states about them.

    Python objects are modelled as follows.
    - [str] is [string]; the operations used by the source ([split],
      [endswith], slicing, [join], [int]) are written out below.
    - a [dict] is an insertion-ordered association list with unique keys
      ([pydict]); WebOb's [MultiDict] ([request.GET]) is a list of pairs whose
      item access returns the last value of a key.
    - exceptions are the constructors of [Exn]; a call that may raise returns
      [Result A = Exn + A].
    - a generator is the list of the values it yields together with the way it
      ends ([Generator]).
    - the collaborators the module calls but does not define (the SQLAlchemy
      session and query, the transaction manager, [coerce_value], the entity's
      [apply_changes]) are the fields of the class [DataLayer]. *)

From Stdlib Require Import ZArith Lia Ascii String.
From stdpp Require Import base list strings.

Local Open Scope Z_scope.

(* ================================================================== *)
(** * Python preliminaries *)
(* ================================================================== *)

(** ** Exceptions *)

Inductive Exn : Type :=
  | HTTPNotFound
  | HTTPServerError (detail : string)
  | HTTPConflict (detail : string)
  | NoResultFound
  | MultipleResultsFound
  | StaleDataError (msg : string)
  | VersionCheckError (msg : string)
  | KeyError (key : string)
  | ValueError (msg : string)
  | UnicodeEncodeError
  | OtherError (name msg : string).

(** [str(ex)]: the message an exception was raised with. *)
Definition str_exn (e : Exn) : string :=
  match e with
  | HTTPServerError m | HTTPConflict m | StaleDataError m
  | VersionCheckError m | KeyError m | ValueError m | OtherError _ m => m
  | HTTPNotFound | NoResultFound | MultipleResultsFound
  | UnicodeEncodeError => ""
  end.



Definition Result (A : Type) : Type := Exn + A.

Definition ok {A} (a : A) : Result A := inr a.
Definition raise {A} (e : Exn) : Result A := inl e.

Definition bind {A B} (r : Result A) (k : A -> Result B) : Result B :=
  match r with
  | inl e => inl e
  | inr a => k a
  end.

Notation "x <- r ;; k" := (bind r (fun x => k))
  (at level 100, r at next level, right associativity).

(** Evaluation of a list comprehension whose element expression may raise:
    the first exception, in iteration order, ends the comprehension. *)
Fixpoint collect {A} (l : list (Result A)) : Result (list A) :=
  match l with
  | [] => ok []
  | r :: rest => a <- r ;; tl <- collect rest ;; ok (a :: tl)
  end.

(** ** Generators *)

(** The values a generator yields, in order, and how it stops: by raising, or
    by returning a value (which iteration discards). *)
Record Generator (A R : Type) : Type := mkGenerator {
  yielded : list A;
  finished : Exn + R
}.
Arguments mkGenerator {A R} _ _.
Arguments yielded {A R} _.
Arguments finished {A R} _.

(** Argument unpacking [f( *gen )]: the generator is run to its end. *)
Definition star_args {A R} (g : Generator A R) : Result (list A) :=
  match finished g with
  | inl e => raise e
  | inr _ => ok (yielded g)
  end.

(** ** Strings *)

(** [s.split(sep)] for a one-character separator. *)
Fixpoint split (sep : ascii) (s : string) : list string :=
  match s with
  | EmptyString => [EmptyString]
  | String c rest =>
      if Ascii.eqb c sep then EmptyString :: split sep rest
      else match split sep rest with
           | [] => [String c EmptyString]
           | hd :: tl => String c hd :: tl
           end
  end.

(** [s.endswith(suffix)] *)
Definition endswith (s suffix : string) : bool :=
  let n := String.length s in
  let m := String.length suffix in
  (m <=? n)%nat && String.eqb (String.substring (n - m) m s) suffix.

(** [s[:-n]] for [n > 0] *)
Definition slice_end (s : string) (n : nat) : string :=
  String.substring 0 (String.length s - n) s.

(** [sep.join(items)] *)
Definition join (sep : string) (items : list string) : string :=
  String.concat sep items.

(** ** [int(s)] on a string, ASCII fragment: surrounding white space, an
    optional sign, decimal digits possibly grouped by single underscores. *)

Definition is_space (c : ascii) : bool :=
  let n := nat_of_ascii c in
  ((9 <=? n) && (n <=? 13) || (28 <=? n) && (n <=? 32))%nat.

Definition digit_value (c : ascii) : option Z :=
  let n := nat_of_ascii c in
  if ((48 <=? n) && (n <=? 57))%nat then Some (Z.of_nat (n - 48)) else None.

Fixpoint lstrip (s : list ascii) : list ascii :=
  match s with
  | c :: rest => if is_space c then lstrip rest else s
  | [] => []
  end.

Definition strip (s : list ascii) : list ascii :=
  rev (lstrip (rev (lstrip s))).

Fixpoint int_digits (after_digit : bool) (acc : Z) (s : list ascii) : option Z :=
  match s with
  | [] => if after_digit then Some acc else None
  | c :: rest =>
      if Ascii.eqb c "_"%char
      then (if after_digit then int_digits false acc rest else None)
      else match digit_value c with
           | Some d => int_digits true (10 * acc + d) rest
           | None => None
           end
  end.

Definition int_literal (s : list ascii) : option Z :=
  match s with
  | c :: rest =>
      if Ascii.eqb c "-"%char then Z.opp <$> int_digits false 0 rest
      else if Ascii.eqb c "+"%char then int_digits false 0 rest
      else int_digits false 0 s
  | [] => None
  end.

Definition int (s : string) : Result Z :=
  match int_literal (strip (list_ascii_of_string s)) with
  | Some z => ok z
  | None => raise (ValueError ("invalid literal for int() with base 10: " +:+ s))
  end.

(** ** Dictionaries *)

Definition pydict (V : Type) : Type := list (string * V).

Fixpoint dict_get {V} (d : pydict V) (k : string) : option V :=
  match d with
  | [] => None
  | (k', v) :: rest => if String.eqb k' k then Some v else dict_get rest k
  end.

(** [d[k] = v]: an existing key keeps its position. *)
Fixpoint dict_set {V} (d : pydict V) (k : string) (v : V) : pydict V :=
  match d with
  | [] => [(k, v)]
  | (k', v') :: rest =>
      if String.eqb k' k then (k', v) :: rest
      else (k', v') :: dict_set rest k v
  end.

Definition dict_contains {V} (d : pydict V) (k : string) : bool :=
  match dict_get d k with Some _ => true | None => false end.

Definition dict_keys {V} (d : pydict V) : list string := d.*1.

(** [dict(pairs)] *)
Definition dict_of {V} (pairs : list (string * V)) : pydict V :=
  fold_left (fun d kv => dict_set d kv.1 kv.2) pairs [].

(** [request.GET]: a MultiDict. *)
Definition MultiDict : Type := list (string * string).

(** [key in md] *)
Definition md_contains (md : MultiDict) (k : string) : bool :=
  existsb (fun kv => String.eqb kv.1 k) md.

(** [md[key]]: the last value stored under the key. *)
Definition md_getitem (md : MultiDict) (k : string) : Result string :=
  match filter (fun kv => String.eqb kv.1 k = true) md with
  | [] => raise (KeyError k)
  | kv :: rest => ok (List.last rest kv).2
  end.

(** ** List slicing, [l[start:stop]] with Python's treatment of negative and
    out-of-range bounds. *)

Record slice : Type := mkSlice { start : Z; stop : Z }.

Definition slice_index (len i : Z) : Z :=
  if i <? 0 then Z.max 0 (i + len) else Z.min i len.

Definition list_slice {A} (l : list A) (s : slice) : list A :=
  let len := Z.of_nat (length l) in
  let a := slice_index len (start s) in
  let b := slice_index len (stop s) in
  take (Z.to_nat (b - a)) (drop (Z.to_nat a) l).

(* ================================================================== *)
(** * The objects of the data-access layer *)
(* ================================================================== *)

Inductive PyValue : Type :=
  | PyNone
  | PyBool (b : bool)
  | PyInt (z : Z)
  | PyStr (s : string).

(** The attribute values of a mapped instance, and the field-value mapping of
    a request body. *)
Definition Row : Type := pydict PyValue.
Definition Values : Type := pydict PyValue.

(** The committed rows of the target table; a mapped instance loaded in a
    session is identified by its position. *)
Definition Store : Type := list Row.

(** Column types; [isinstance_String] is [isinstance(t, String)], true of
    [String] and of its subclasses. *)
Inductive SqlType : Type :=
  | TString | TText | TUnicode | TUnicodeText | TEnum
  | TInteger | TBigInteger | TNumeric | TFloat | TBoolean
  | TDate | TDateTime | TLargeBinary.

Definition isinstance_String (t : SqlType) : bool :=
  match t with
  | TString | TText | TUnicode | TUnicodeText | TEnum => true
  | _ => false
  end.

Record Column : Type := mkColumn {
  column_name : string;
  column_type : SqlType
}.

Inductive MapperProperty : Type :=
  | ColumnProperty (columns_0 : Column) (columns_rest : list Column)
  | RelationshipProperty
  | CompositeProperty
  | SynonymProperty.

Inductive ExtensionType : Type :=
  | NOT_EXTENSION
  | HYBRID_PROPERTY
  | HYBRID_METHOD
  | ASSOCIATION_PROXY.

(** An element of [inspect(target).all_orm_descriptors]. Hybrid and proxy
    descriptors carry no [property]; the source only reads it behind the
    [is_attribute] and [extension_type] tests. *)
Record Descriptor : Type := mkDescriptor {
  key : string;
  is_attribute : bool;
  extension_type : ExtensionType;
  property : option MapperProperty
}.

(** A mapped class (or an alias of one). *)
Record Target : Type := mkTarget {
  is_AliasedClass : bool;
  all_orm_descriptors : list Descriptor
}.

(** Orderable expressions. *)
Inductive ColumnElement : Type :=
  | Attribute (attr : Descriptor)
  | SubqueryColumn (name : string)
  | Desc (e : ColumnElement).

Inductive Operator : Type := OpEq | OpGt | OpGe | OpLt | OpLe.

(** Filter criteria: the Python booleans the base class uses, the
    expressions [auto_filters] builds, and any other clause. *)
Inductive Criterion : Type :=
  | Literal (b : bool)
  | Comparison (op : Operator) (attr : Descriptor) (v : PyValue)
  | ILike (attr : Descriptor) (pattern : string)
  | TextClause (sql : string).

(** What a filter function may return. *)
Inductive FilterResult : Type :=
  | FNone
  | FSingle (c : Criterion)
  | FList (items : list (option Criterion))
  | FTuple (items : list (option Criterion)).

Definition Builder : Type := string -> Result FilterResult.

(** A value of the order registry. *)
Inductive OrderEntry : Type :=
  | OrderOne (e : ColumnElement)
  | OrderMany (es : list ColumnElement).

Record Request : Type := mkRequest {
  GET : MultiDict;
  json : Result (pydict Values)
}.

(** The attributes of a view instance: the class attributes of the subclass,
    the values of its overridable properties, and the request. *)
Record View : Type := mkView {
  filters : pydict Builder;
  accept_order : pydict OrderEntry;
  target_type : Target;
  target_name : string;
  update_lock : bool;
  use_subquery_after_filter : bool;
  identity_filter : Criterion;
  context_filter : Criterion;
  runtime_filters : list Criterion;
  request : Request
}.

(** The base class as written. *)
Definition CRUDView_base (req : Request) : View :=
  {| filters := []; accept_order := [];
     target_type := mkTarget false []; target_name := "object";
     update_lock := false; use_subquery_after_filter := false;
     identity_filter := Literal false; context_filter := Literal true;
     runtime_filters := []; request := req |}.

Definition set_accept_order (v : View) (d : pydict OrderEntry) : View :=
  {| filters := filters v; accept_order := d;
     target_type := target_type v; target_name := target_name v;
     update_lock := update_lock v;
     use_subquery_after_filter := use_subquery_after_filter v;
     identity_filter := identity_filter v; context_filter := context_filter v;
     runtime_filters := runtime_filters v; request := request v |}.

(** The collaborators. [holds c r]: the store's evaluation of a criterion on
    a row. [order_rows]: its ORDER BY. [commit db work]: the transaction
    manager's commit of the session's working rows [work] over the committed
    rows [db], which may fail. [entity_apply_changes obj data]: the entity's
    own [apply_changes], returning the object as it left it and how it ended.
    [new_instance]: [target_type()]. [session_merge]: [dbsession.merge]. *)
Class DataLayer : Type := {
  holds : Criterion -> Row -> bool;
  order_rows : list ColumnElement -> list (nat * Row) -> list (nat * Row);
  commit : Store -> Store -> Result Store;
  coerce_value : Target -> Column -> string -> bool -> Result PyValue;
  entity_apply_changes : Row -> Values -> Row * Result unit;
  new_instance : Target -> Row;
  session_merge : Store -> nat -> Row -> Row
}.

(** ** Queries *)

Record Query : Type := mkQuery {
  q_rows : list (nat * Row);
  q_columns : list (string * ColumnElement);
  q_for_update : option (option Target)
}.

(** The columns a query over a mapped class selects, keyed by column name as
    the [c] collection of a subquery exposes them. *)
Definition mapped_columns (t : Target) : list (string * ColumnElement) :=
  flat_map (fun d =>
    match property d with
    | Some (ColumnProperty c cs) =>
        (fun col => (column_name col, SubqueryColumn (column_name col))) <$> (c :: cs)
    | _ => []
    end) (all_orm_descriptors t).

(** [dbsession.query(target)] *)
Definition session_query (db : Store) (t : Target) : Query :=
  {| q_rows := imap pair db; q_columns := mapped_columns t;
     q_for_update := None |}.

(** [query.with_for_update(of=...)] *)
Definition with_for_update (q : Query) (lock_of : option Target) : Query :=
  {| q_rows := q_rows q; q_columns := q_columns q; q_for_update := Some lock_of |}.

(** [query.count()] *)
Definition query_count (q : Query) : nat := length (q_rows q).

(** [query.all()] *)
Definition query_all (q : Query) : list Row := (q_rows q).*2.

(** [query[s]] *)
Definition query_getitem (q : Query) (s : slice) : list Row :=
  list_slice (query_all q) s.

(** [query.one()] *)
Definition query_one (q : Query) : Result (nat * Row) :=
  match q_rows q with
  | [] => raise NoResultFound
  | [r] => ok r
  | _ :: _ :: _ => raise MultipleResultsFound
  end.

(** [query.subquery()] followed by [dbsession.query( *subquery.c )]: the same
    rows, seen through the subquery's columns. *)
Definition subquery (q : Query) : Query :=
  {| q_rows := q_rows q; q_columns := q_columns q; q_for_update := None |}.

Section Queries.
Context `{DataLayer}.

(** [query.filter( *criteria )] *)
Definition query_filter (q : Query) (criteria : list Criterion) : Query :=
  {| q_rows := filter (fun r => forallb (fun c => holds c r.2) criteria = true) (q_rows q);
     q_columns := q_columns q; q_for_update := q_for_update q |}.

(** [query.order_by( *clauses )] *)
Definition order_by (q : Query) (clauses : list ColumnElement) : Query :=
  {| q_rows := order_rows clauses (q_rows q);
     q_columns := q_columns q; q_for_update := q_for_update q |}.

(** [with transaction.manager: body]: the body works on the session's copy of
    the rows; leaving it normally commits, leaving it by an exception aborts,
    and a failed commit leaves the committed rows as they were. *)
Definition with_transaction {A} (db : Store) (body : Store -> Store * Result A)
  : Store * Result A :=
  match body db with
  | (_, inl e) => (db, inl e)
  | (work, inr a) =>
      match commit db work with
      | inl e => (db, inl e)
      | inr db' => (db', inr a)
      end
  end.

End Queries.

(* ================================================================== *)
(** * [class CRUDView] *)
(* ================================================================== *)

(** What a view method returns to the framework. *)
Inductive Response : Type :=
  | Body (d : pydict Row)
  | Listing (items : list Row) (total : nat)
  | HTTPOk.

(** [d[k]] *)
Definition getitem {V} (d : pydict V) (k : string) : Result V :=
  match dict_get d k with
  | Some v => ok v
  | None => raise (KeyError k)
  end.

(** The test both [auto_filters] and [auto_order] apply to a descriptor. *)
Definition is_column_attribute (item : Descriptor) : bool :=
  is_attribute item
  && match extension_type item with NOT_EXTENSION => true | _ => false end
  && match property item with Some (ColumnProperty _ _) => true | _ => false end.

(** [isinstance(item.property.columns[0].type, String)] *)
Definition has_String_type (item : Descriptor) : bool :=
  match property item with
  | Some (ColumnProperty c _) => isinstance_String (column_type c)
  | _ => false
  end.

(** A token of the [order] parameter: the sort key and whether it carries the
    descending marker. *)
Definition order_token (item : string) : string * bool :=
  if endswith item " desc" then (slice_end item 5, true) else (item, false).

(** [elem.desc() if descending else elem] *)
Definition directed (descending : bool) (elem : ColumnElement) : ColumnElement :=
  if descending then Desc elem else elem.

(** The body of the loop over [selected] in [order_clauses]. *)
Definition expand_order (item : OrderEntry * bool) : list ColumnElement :=
  match item.1 with
  | OrderMany es => directed item.2 <$> es
  | OrderOne e => [directed item.2 e]
  end.

Module CRUDView.
Section Methods.
Context `{DataLayer}.

Definition sanitize_input (self : View) : Result Values :=
  body <- json (request self) ;; getitem body (target_name self).

Definition get_base_query (self : View) (db : Store) : Query :=
  session_query db (target_type self).

Definition get_identity_base (self : View) (db : Store) : Query :=
  get_base_query self db.

Definition get_list_base (self : View) (db : Store) : Query :=
  get_base_query self db.

Definition get_by_id (self : View) (db : Store) (update_lock : bool)
  : Result (nat * Row) :=
  let attempt :=
    let query := get_identity_base self db in
    let query :=
      if update_lock then
        if is_AliasedClass (target_type self)
        then with_for_update query (Some (target_type self))
        else with_for_update query None
      else query in
    query_one (query_filter query [context_filter self; identity_filter self]) in
  match attempt with
  | inl NoResultFound => raise HTTPNotFound
  | other => other
  end.

(** The list [tmp] of [get_query_filters]. *)
Definition filter_results (self : View) (exclude : option (list string))
  : Result (list FilterResult) :=
  let params := GET (request self) in
  collect
    ((fun k => builder <- getitem (filters self) k ;;
               raw <- md_getitem params k ;;
               builder raw)
     <$> filter (fun k =>
           md_contains params k
           && match exclude with
              | None => true
              | Some ex => negb (existsb (String.eqb k) ex)
              end = true)
         (dict_keys (filters self))).

Definition single_criteria (tmp : list FilterResult) : list Criterion :=
  flat_map (fun i => match i with FSingle c => [c] | _ => [] end) tmp.

Definition sequence_criteria (tmp : list FilterResult) : list Criterion :=
  flat_map (fun j => match j with
                     | FList items | FTuple items => omap id items
                     | _ => []
                     end) tmp.

Definition get_query_filters (self : View) (exclude : option (list string))
  : Result (list Criterion) :=
  tmp <- filter_results self exclude ;;
  ok (single_criteria tmp ++ sequence_criteria tmp ++ runtime_filters self).

Definition query_filters (self : View) : Result (list Criterion) :=
  get_query_filters self None.

(** [order_clauses] is a generator function: its first [return] carries the
    list [[False]] as the generator's return value and yields nothing. *)
Definition order_clauses (self : View)
  : Generator ColumnElement (option (list bool)) :=
  let params := GET (request self) in
  let return_False := mkGenerator [] (inr (Some [false])) in
  if negb (md_contains params "order") then return_False
  else
    match md_getitem params "order" with
    | inl e => mkGenerator [] (inl e)
    | inr value =>
        if String.eqb value "" then return_False
        else
          let orders := order_token <$> split "," value in
          let unknown :=
            filter (fun order => dict_contains (accept_order self) order.1 = false)
                   orders in
          if existsb (fun order => negb (dict_contains (accept_order self) order.1))
                     orders
          then mkGenerator []
                 (inl (HTTPServerError
                         ("not implemented, order by " +:+ join ", " unknown.*1)))
          else
            match collect ((fun order =>
                              entry <- getitem (accept_order self) order.1 ;;
                              ok (entry, order.2)) <$> orders) with
            | inl e => mkGenerator [] (inl e)
            | inr selected =>
                mkGenerator (flat_map expand_order selected) (inr None)
            end
    end.

(** [False] stands for "no slice". *)
Definition pager_slice (self : View) : Result (option slice) :=
  let params := GET (request self) in
  if negb (md_contains params "pageSize") then ok None
  else
    raw <- md_getitem params "pageSize" ;;
    page_size <- int raw ;;
    if page_size <=? 0 then ok None
    else
      page <- (if md_contains params "page"
               then raw_page <- md_getitem params "page" ;; int raw_page
               else ok 0) ;;
      ok (Some (mkSlice (page * page_size) (page * page_size + page_size))).

(** [query[pager] if pager else query.all()] *)
Definition fetch (query : Query) (pager : option slice) : list Row :=
  match pager with
  | Some s => query_getitem query s
  | None => query_all query
  end.

(** Returns the view as the call leaves it (the subquery branch assigns
    [self.accept_order]) and the call's result. *)
Definition get_search_results (self : View) (db : Store) (query : option Query)
  : View * Result (list Row * nat) :=
  let query :=
    match query with
    | None => query_filter (get_list_base self db) [context_filter self]
    | Some q => q
    end in
  match query_filters self with
  | inl e => (self, inl e)
  | inr criteria =>
      let query := query_filter query criteria in
      match pager_slice self with
      | inl e => (self, inl e)
      | inr pager =>
          let count := query_count query in
          if use_subquery_after_filter self then
            let query := subquery query in
            let self := set_accept_order self
                          (dict_of (prod_map id OrderOne <$> q_columns query)) in
            match star_args (order_clauses self) with
            | inl e => (self, inl e)
            | inr clauses => (self, ok (fetch (order_by query clauses) pager, count))
            end
          else
            match star_args (order_clauses self) with
            | inl e => (self, inl e)
            | inr clauses => (self, ok (fetch (order_by query clauses) pager, count))
            end
      end
  end.

Definition get (self : View) (db : Store) : Result Response :=
  obj <- get_by_id self db false ;;
  ok (Body [(target_name self, obj.2)]).

Definition apply_changes (self : View) (obj : Row) (data : Values)
  (for_update : bool) : Row * Result unit :=
  entity_apply_changes obj data.

(** The block under [with transaction.manager] in [update]; [old] is the
    session's object at position [i], changed in place by [apply_changes]. *)
Definition update_body (self : View) (work : Store) : Store * Result unit :=
  match get_by_id self work (update_lock self) with
  | inl e => (work, inl e)
  | inr (i, old) =>
      match sanitize_input self with
      | inl e => (work, inl e)
      | inr values =>
          match apply_changes self old values true with
          | (old', inl (VersionCheckError m)) =>
              (<[i := old']> work,
               inl (HTTPConflict (str_exn (VersionCheckError m))))
          | (old', outcome) => (<[i := old']> work, outcome)
          end
      end
  end.

Definition update (self : View) (db : Store) : Store * Result Response :=
  match with_transaction db (update_body self) with
  | (db', inl (StaleDataError m)) =>
      (db', inl (HTTPConflict (str_exn (StaleDataError m))))
  | (db', inl e) => (db', inl e)
  | (db', inr _) => (db', get self db')
  end.

Definition insert (self : View) (db : Store) : Store * Result Response :=
  let obj := new_instance (target_type self) in
  match sanitize_input self with
  | inl e => (db, inl e)
  | inr values =>
      match with_transaction db (fun work =>
              let i := length work in
              let '(obj', outcome) := apply_changes self obj values false in
              (work ++ [obj'], _ <- outcome ;; ok (i, obj'))) with
      | (db', inl e) => (db', inl e)
      | (db', inr (i, obj')) =>
          (db', ok (Body [(target_name self, session_merge db' i obj')]))
      end
  end.

Definition delete (self : View) (db : Store) : Store * Result Response :=
  match with_transaction db (fun work =>
          match get_by_id self work false with
          | inl e => (work, inl e)
          | inr (i, old) => (base.delete i work, ok tt)
          end) with
  | (db', inl e) => (db', inl e)
  | (db', inr _) => (db', ok HTTPOk)
  end.

Definition coerce_func (target : Target) (x : string) (attr : Descriptor)
  : Result PyValue :=
  match property attr with
  | Some (ColumnProperty c _) => coerce_value target c x false
  | _ => raise (OtherError "AttributeError" "columns")
  end.

Definition compare_with (target : Target) (op : Operator) (attr : Descriptor)
  : Builder :=
  fun x => v <- coerce_func target x attr ;; ok (FSingle (Comparison op attr v)).

Definition ilike_with (attr : Descriptor) : Builder :=
  fun x => ok (FSingle (ILike attr ("%" +:+ x +:+ "%"))).

(** The body of the loop of [auto_filters]. *)
Definition auto_filters_item (target : Target) (prefix : string)
  (ret : pydict Builder) (item : Descriptor) : pydict Builder :=
  let k := prefix +:+ key item in
  let ret := dict_set ret k (compare_with target OpEq item) in
  let ret := if has_String_type item
             then dict_set ret (k +:+ "_like") (ilike_with item)
             else ret in
  let ret := dict_set ret (k +:+ "_gt") (compare_with target OpGt item) in
  let ret := dict_set ret (k +:+ "_ge") (compare_with target OpGe item) in
  let ret := dict_set ret (k +:+ "_lt") (compare_with target OpLt item) in
  dict_set ret (k +:+ "_le") (compare_with target OpLe item).

Definition auto_filters (cls_target_type : Target) (target : option Target)
  (prefix : string) : pydict Builder :=
  let target := default cls_target_type target in
  fold_left (auto_filters_item target prefix)
    (filter (fun item => is_column_attribute item = true)
            (all_orm_descriptors target))
    [].

Definition auto_order (cls_target_type : Target) (target : option Target)
  (prefix : string) : pydict OrderEntry :=
  let target := default cls_target_type target in
  fold_left (fun ret attr => dict_set ret (prefix +:+ key attr) (OrderOne (Attribute attr)))
    (filter (fun item => is_column_attribute item = true)
            (all_orm_descriptors target))
    [].

Definition list (self : View) (db : Store) : View * Result Response :=
  match get_search_results self db None with
  | (self, inl e) => (self, inl e)
  | (self, inr (items, count)) => (self, ok (Listing items count))
  end.

End Methods.
End CRUDView.

(** The five operations a view handles, as transitions of the view instance
    and the store. *)
Inductive Operation : Type := OpGet | OpList | OpInsert | OpUpdate | OpDelete.

Definition handle `{DataLayer} (op : Operation) (self : View) (db : Store)
  : View * Store * Result Response :=
  match op with
  | OpGet => (self, db, CRUDView.get self db)
  | OpList => let '(self', r) := CRUDView.list self db in (self', db, r)
  | OpInsert => let '(db', r) := CRUDView.insert self db in (self, db', r)
  | OpUpdate => let '(db', r) := CRUDView.update self db in (self, db', r)
  | OpDelete => let '(db', r) := CRUDView.delete self db in (self, db', r)
  end.

(* ================================================================== *)
(** * [pyramid_json_renderer_factory] *)
(* ================================================================== *)

(** The text the encoder produces is a sequence of Unicode code points. *)
Definition Text : Type := list N.

Definition byte : Type := Byte.byte.

Definition byte_of (n : N) : byte := default Byte.x00 (Byte.of_N n).

(** The UTF-8 bytes of one code point; surrogates cannot be encoded. *)
Definition utf8_code_point (cp : N) : Result (list byte) :=
  (if cp <? 128 then ok [byte_of cp]
   else if cp <? 2048 then
     ok [byte_of (192 + cp / 64); byte_of (128 + cp mod 64)]
   else if cp <? 65536 then
     if (55296 <=? cp) && (cp <=? 57343) then raise UnicodeEncodeError
     else ok [byte_of (224 + cp / 4096); byte_of (128 + (cp / 64) mod 64);
              byte_of (128 + cp mod 64)]
   else if cp <? 1114112 then
     ok [byte_of (240 + cp / 262144); byte_of (128 + (cp / 4096) mod 64);
         byte_of (128 + (cp / 64) mod 64); byte_of (128 + cp mod 64)]
   else raise UnicodeEncodeError)%N.

(** [text.encode()] and [text.encode('utf8')] *)
Fixpoint str_encode (text : Text) : Result (list byte) :=
  match text with
  | [] => ok []
  | cp :: rest =>
      b <- utf8_code_point cp ;; bs <- str_encode rest ;; ok (b ++ bs)
  end.

(** [text.encode(charset)] *)
Definition encode_with (charset : string) (text : Text) : Result (list byte) :=
  if String.eqb charset "utf8" || String.eqb charset "utf-8"
  then str_encode text
  else raise (OtherError "LookupError" charset).

(** [request.response]: the body is the sequence [app_iter] hands to the WSGI
    layer, piece by piece. *)
Record HTTPResponse : Type := mkResponse {
  content_type : string;
  charset : string;
  app_iter : Generator (list byte) unit
}.

(** [response.write(text)] appends one encoded piece to the body. *)
Definition response_write (response : HTTPResponse) (text : Text)
  : HTTPResponse * Result unit :=
  match finished (app_iter response) with
  | inl e => (response, inl e)
  | inr _ =>
      match encode_with (charset response) text with
      | inl e => (response, inl e)
      | inr piece =>
          ({| content_type := content_type response;
              charset := charset response;
              app_iter := mkGenerator (yielded (app_iter response) ++ [piece])
                                      (inr tt) |}, ok tt)
      end
  end.

(** What iterating a body gives the WSGI layer: every piece, or the exception
    that interrupts the iteration. *)
Definition body_pieces (response : HTTPResponse) : Result (list (list byte)) :=
  star_args (app_iter response).

Section Renderer.

(** The values handed to the renderer, and the declarative base class used to
    recognise entities. *)
Context {Value BaseType : Type}.

(** The arguments [JSONEncoder] is constructed with. *)
Record JSONEncoder : Type := mkJSONEncoder {
  enc_request : option HTTPResponse;
  enc_base_type : option BaseType;
  enc_separators : Text * Text;
  enc_check_circular : bool
}.

(** The chunks of the JSON text of a value whose exposed-field graph is
    acyclic, for a base type and a pair of separators. *)
Variable json_chunks : option BaseType -> Text * Text -> Value -> Generator Text unit.

(** Modelled from the spec: the class [JSONEncoder] of [json_encoder.py] is not
    part of this module. Its [iterencode] "produces a lazy, order-preserving
    sequence of output chunks (not a single materialized buffer)" in which
    entity instances are encoded by their exposed fields; circular-reference
    detection is only a check, and the values encoded are acyclic. *)
Definition iterencode (encoder : JSONEncoder) (value : Value) : Generator Text unit :=
  json_chunks (enc_base_type encoder) (enc_separators encoder) value.

(** Modelled from the spec: the "non-streaming convenience path ... returning
    one fully materialized string" of the absent [JSONEncoder], which joins the
    chunks of [iterencode] as [json.JSONEncoder.encode] does. *)
Definition encode (encoder : JSONEncoder) (value : Value) : Result Text :=
  chunks <- star_args (iterencode encoder value) ;; ok (concat chunks).

(** The loop [for chunk in chunks: response.write(chunk)]. *)
Fixpoint write_chunks (response : HTTPResponse) (chunks : list Text)
  : HTTPResponse * Result unit :=
  match chunks with
  | [] => (response, ok tt)
  | chunk :: rest =>
      match response_write response chunk with
      | (response', inl e) => (response', inl e)
      | (response', inr _) => write_chunks response' rest
      end
  end.

(** The generator [_iterencode(val)]: each chunk encoded as it is produced. *)
Fixpoint encode_chunks (chunks : list Text) (finish : Result unit)
  : Generator (list byte) unit :=
  match chunks with
  | [] => mkGenerator [] finish
  | chunk :: rest =>
      match str_encode chunk with
      | inl e => mkGenerator [] (inl e)
      | inr piece =>
          let g := encode_chunks rest finish in
          mkGenerator (piece :: yielded g) (finished g)
      end
  end.

Definition _iterencode (json_encoder : JSONEncoder) (val : Value)
  : Generator (list byte) unit :=
  let g := iterencode json_encoder val in
  encode_chunks (yielded g) (finished g).

(** [_render(value, system)], with [system.get('request')] reduced to the
    response of the request, if any. Returns the response as the call leaves
    it and the value returned to the framework. *)
Definition _render (base_type : option BaseType) (stream_method : Z)
  (separators : Text * Text) (value : Value) (request : option HTTPResponse)
  : option HTTPResponse * Result (option Text) :=
  match request with
  | Some response =>
      let response :=
        {| content_type := "application/json"; charset := "utf8";
           app_iter := app_iter response |} in
      let json_encoder :=
        mkJSONEncoder request base_type separators false in
      if stream_method =? 0 then
        let g := iterencode json_encoder value in
        match write_chunks response (yielded g) with
        | (response', inl e) => (Some response', inl e)
        | (response', inr _) =>
            match finished g with
            | inl e => (Some response', inl e)
            | inr _ => (Some response', ok None)
            end
        end
      else
        (Some {| content_type := content_type response;
                 charset := charset response;
                 app_iter := _iterencode json_encoder value |}, ok None)
  | None =>
      let json_encoder := mkJSONEncoder None base_type separators true in
      (None, s <- encode json_encoder value ;; ok (Some s))
  end.

Definition pyramid_json_renderer_factory (base_type : option BaseType)
  (stream_method : Z) (separators : Text * Text) :=
  fun (info : unit) => _render base_type stream_method separators.

End Renderer.

(* ================================================================== *)
(** * Vocabulary of the statements *)
(* ================================================================== *)

(** The raw value of a query parameter, if the request carries it. *)
Definition requested (self : View) (name : string) : option string :=
  match md_getitem (GET (request self)) name with
  | inr value => Some value
  | inl _ => None
  end.

(** The same view handling a request with one more query parameter. *)
Definition with_param (self : View) (name value : string) : View :=
  {| filters := filters self; accept_order := accept_order self;
     target_type := target_type self; target_name := target_name self;
     update_lock := update_lock self;
     use_subquery_after_filter := use_subquery_after_filter self;
     identity_filter := identity_filter self;
     context_filter := context_filter self;
     runtime_filters := runtime_filters self;
     request := {| GET := GET (request self) ++ [(name, value)];
                   json := json (request self) |} |}.

(** The status code Pyramid attaches to the HTTP exceptions the module raises. *)
Definition status_code (e : Exn) : option Z :=
  match e with
  | HTTPNotFound => Some 404
  | HTTPConflict _ => Some 409
  | HTTPServerError _ => Some 500
  | _ => None
  end.

(** The call [self.filters[key](self.request.GET[key])]. *)
Definition invoke (v : View) (k : string) : Result FilterResult :=
  builder <- getitem (filters v) k ;;
  raw <- md_getitem (GET (request v)) k ;;
  builder raw.

(** What one filter result contributes to the criteria of the query. *)
Definition contribution (r : FilterResult) : list Criterion :=
  match r with
  | FNone => []
  | FSingle c => [c]
  | FList items | FTuple items => omap id items
  end.

(** The rows of the store that satisfy every criterion of a list. *)
Definition matching `{DataLayer} (criteria : list Criterion) (db : Store)
  : list (nat * Row) :=
  filter (fun r => forallb (fun c => holds c r.2) criteria = true) (imap pair db).

(** The view instance as [get_search_results] leaves it: the subquery branch
    has assigned the subquery's columns to [self.accept_order]. *)
Definition searched (self : View) : View :=
  if use_subquery_after_filter self
  then set_accept_order self
         (dict_of (prod_map id OrderOne <$> mapped_columns (target_type self)))
  else self.

(** The rows a pager selects from an ordered result. *)
Definition window (pager : option slice) (rows : list Row) : list Row :=
  match pager with
  | Some s => list_slice rows s
  | None => rows
  end.

(** Whether a row satisfies every criterion of a list. *)
Definition satisfies `{DataLayer} (criteria : list Criterion) (row : Row) : bool :=
  forallb (fun c => holds c row) criteria.

(** The names [auto_filters] assigns for one field: [_like] only for a
    [String] column. *)
Definition derived_keys (prefix : string) (item : Descriptor) : list string :=
  let k := prefix +:+ key item in
  k :: (if has_String_type item then [k +:+ "_like"] else [])
    ++ [k +:+ "_gt"; k +:+ "_ge"; k +:+ "_lt"; k +:+ "_le"].

(** The six names [auto_filters] may derive from one field. *)
Definition candidate_keys (prefix : string) (item : Descriptor) : list string :=
  let k := prefix +:+ key item in
  [k; k +:+ "_like"; k +:+ "_gt"; k +:+ "_ge"; k +:+ "_lt"; k +:+ "_le"].




(* ================================================================== *)
(** * A small concrete data layer, used to run the definitions *)
(* ================================================================== *)

Module Demo.

Definition compare_values (op : Operator) (a b : PyValue) : bool :=
  match a, b with
  | PyInt x, PyInt y =>
      match op with
      | OpEq => x =? y | OpGt => y <? x | OpGe => y <=? x
      | OpLt => x <? y | OpLe => x <=? y
      end
  | PyStr x, PyStr y => match op with OpEq => String.eqb x y | _ => false end
  | _, _ => false
  end.

Definition evaluate (c : Criterion) (r : Row) : bool :=
  match c with
  | Literal b => b
  | Comparison op attr v =>
      match dict_get r (key attr) with
      | Some a => compare_values op a v
      | None => false
      end
  | ILike _ _ | TextClause _ => false
  end.

(** Rows keep their order unless the first clause is descending. *)
Definition sort_rows (clauses : list ColumnElement) (rows : list (nat * Row))
  : list (nat * Row) :=
  match clauses with
  | Desc _ :: _ => rev rows
  | _ => rows
  end.

Definition coerce (t : Target) (c : Column) (x : string) (for_update : bool)
  : Result PyValue :=
  match column_type c with
  | TInteger | TBigInteger => z <- int x ;; ok (PyInt z)
  | _ => ok (PyStr x)
  end.

(** Writes the supplied fields, then checks the version. *)
Definition write_fields (obj : Row) (data : Values) : Row * Result unit :=
  let written :=
    fold_left (fun o kv => if String.eqb kv.1 "version" then o
                           else dict_set o kv.1 kv.2) data obj in
  match dict_get obj "version", dict_get data "version" with
  | Some stored, Some supplied =>
      match stored, supplied with
      | PyInt a, PyInt b =>
          if a =? b then (dict_set written "version" (PyInt (a + 1)), ok tt)
          else (written, raise (VersionCheckError "stale version"))
      | _, _ => (written, raise (VersionCheckError "stale version"))
      end
  | _, _ => (written, ok tt)
  end.

Definition layer (on_commit : Store -> Store -> Result Store) : DataLayer :=
  {| holds := evaluate; order_rows := sort_rows;
     commit := on_commit; coerce_value := coerce;
     entity_apply_changes := write_fields;
     new_instance := fun _ => [];
     session_merge := fun db i obj => default obj (db !! i) |}.

(** A store that accepts every commit, and one that loses the race. *)
Definition committing : DataLayer := layer (fun _ work => ok work).

Definition column_attribute (name : string) (t : SqlType) : Descriptor :=
  mkDescriptor name true NOT_EXTENSION (Some (ColumnProperty (mkColumn name t) [])).

Definition id_ : Descriptor := column_attribute "id" TInteger.
Definition name_ : Descriptor := column_attribute "name" TString.
Definition age_ : Descriptor := column_attribute "age" TInteger.
Definition version_ : Descriptor := column_attribute "version" TInteger.

Definition Person : Target :=
  mkTarget false
    [id_; name_; age_; version_;
     mkDescriptor "friends" true NOT_EXTENSION (Some RelationshipProperty);
     mkDescriptor "label" false HYBRID_PROPERTY None].

Definition person (i : Z) (n : string) (a v : Z) : Row :=
  [("id", PyInt i); ("name", PyStr n); ("age", PyInt a); ("version", PyInt v)].

Definition people : Store :=
  [person 1 "ann" 31 4; person 2 "bob" 25 1; person 3 "cy" 47 2].

(** A view over [Person], selecting the row whose id is [i]. *)
Definition PersonView `{DataLayer} (i : Z) (subquery : bool) (req : Request) : View :=
  {| filters := CRUDView.auto_filters Person None "";
     accept_order :=
       dict_set (CRUDView.auto_order Person None "")
                "full" (OrderMany [Attribute name_; Attribute id_]);
     target_type := Person; target_name := "person";
     update_lock := true; use_subquery_after_filter := subquery;
     identity_filter := Comparison OpEq id_ (PyInt i);
     context_filter := Literal true;
     runtime_filters := [Comparison OpGt id_ (PyInt 0)];
     request := req |}.

Definition query (params : MultiDict) : Request :=
  mkRequest params (raise (ValueError "no body")).

Definition body (fields : Values) : Request :=
  mkRequest [] (ok [("person", fields)]).

(** A mapped class in which one field is named like a key derived from
    another. *)
Definition Measure : Target :=
  mkTarget false [column_attribute "a" TInteger; column_attribute "a_like" TInteger].

Definition Reading : Target :=
  mkTarget false [column_attribute "x_gt" TString; column_attribute "x" TInteger].

(** A filter registry whose builders return every kind of result. *)
Definition mixed_registry : pydict Builder :=
  [("none", fun _ => ok FNone);
   ("one", fun raw => ok (FSingle (TextClause raw)));
   ("many", fun raw => ok (FList [Some (TextClause raw); None;
                                  Some (Literal true)]))].

(** A toy encoder: a listing of integers below ten. *)
Definition digit (n : N) : Text := [(48 + n mod 10)%N].

Definition chunks_of_digits (base : option unit) (separators : Text * Text)
  (value : list N) : Generator Text unit :=
  match value with
  | [] => mkGenerator [[91; 93]%N] (inr tt)
  | n :: rest =>
      mkGenerator
        (([91%N] ++ digit n) :: ((fun m => separators.1 ++ digit m) <$> rest)
         ++ [[93%N]])
        (inr tt)
  end.

Definition fresh_response : HTTPResponse :=
  mkResponse "text/html" "UTF-8" (mkGenerator [] (inr tt)).

End Demo.

(* ================================================================== *)
(** * Lemmas on the Python preliminaries *)
(* ================================================================== *)

Section StringLemmas.


Lemma append_cons (c : ascii) (s t : string) :
  String c s +:+ t = String c (s +:+ t).
Proof. reflexivity. Qed.

Lemma append_length (s t : string) :
  String.length (s +:+ t) = (String.length s + String.length t)%nat.
Proof.
  induction s as [|c s IH]; [done|].
  rewrite append_cons. simpl. by rewrite IH.
Qed.

Lemma append_inj_r (s t u : string) : s +:+ t = s +:+ u -> t = u.
Proof.
  induction s as [|c s IH]; [done|].
  rewrite !append_cons. intros [= Heq]. auto.
Qed.

Lemma append_assoc (s t u : string) : (s +:+ t) +:+ u = s +:+ t +:+ u.
Proof.
  induction s as [|c s IH]; [done|].
  rewrite !append_cons. by rewrite IH.
Qed.

Lemma substring_all (s : string) : String.substring 0 (String.length s) s = s.
Proof. induction s as [|c s IH]; simpl; [done | by rewrite IH]. Qed.


Lemma substring_suffix (k suffix : string) :
  String.substring (String.length k) (String.length suffix) (k +:+ suffix) = suffix.
Proof.
  induction k as [|c k IH]; [apply substring_all|].
  rewrite append_cons. simpl. apply IH.
Qed.


Lemma endswith_append (k suffix : string) : endswith (k +:+ suffix) suffix = true.
Proof.
  unfold endswith. rewrite append_length. apply andb_true_intro. split.
  - apply Nat.leb_le. lia.
  - replace (String.length k + String.length suffix - String.length suffix)%nat
      with (String.length k) by lia.
    rewrite substring_suffix. apply String.eqb_refl.
Qed.

End StringLemmas.

Section DictLemmas.
Context {V : Type}.
Implicit Types (d : pydict V) (k : string) (v : V).

Lemma dict_get_set d k v k' :
  dict_get (dict_set d k v) k'
  = if String.eqb k k' then Some v else dict_get d k'.
Proof.
  induction d as [|[k0 v0] d IH]; simpl.
  - done.
  - destruct (String.eqb k0 k) eqn:E0; simpl.
    + apply String.eqb_eq in E0 as ->. by destruct (String.eqb k k').
    + rewrite IH. destruct (String.eqb k0 k') eqn:E1; [|done].
      apply String.eqb_eq in E1 as ->. by rewrite String.eqb_sym, E0.
Qed.

Lemma dict_get_set_eq d k v : dict_get (dict_set d k v) k = Some v.
Proof. by rewrite dict_get_set, String.eqb_refl. Qed.

Lemma dict_get_set_ne d k v k' :
  k <> k' -> dict_get (dict_set d k v) k' = dict_get d k'.
Proof.
  intros Hne. rewrite dict_get_set.
  by apply String.eqb_neq in Hne as ->.
Qed.

Lemma dict_get_None d k : dict_get d k = None <-> ~ In k (dict_keys d).
Proof.
  unfold dict_keys. induction d as [|[k0 v0] d IH]; simpl.
  - tauto.
  - destruct (String.eqb k0 k) eqn:E.
    + apply String.eqb_eq in E. split; [done | tauto].
    + apply String.eqb_neq in E. rewrite IH. tauto.
Qed.

Lemma dict_get_key d k : In k (dict_keys d) -> exists v, dict_get d k = Some v.
Proof.
  intros Hin. destruct (dict_get d k) as [v|] eqn:E; [by exists v|].
  by apply dict_get_None in E.
Qed.

Lemma dict_contains_false d k : dict_contains d k = false <-> dict_get d k = None.
Proof. unfold dict_contains. by destruct (dict_get d k). Qed.

(** The keys of a dictionary after a run of assignments: the old keys, then
    the new ones in order of first assignment. *)
Lemma dict_set_keys d k v :
  dict_keys (dict_set d k v)
  = if dict_contains d k then dict_keys d else dict_keys d ++ [k].
Proof.
  unfold dict_keys, dict_contains.
  induction d as [|[k0 v0] d IH]; simpl; [done|].
  destruct (String.eqb k0 k) eqn:E; [done|].
  rewrite fmap_cons, IH. by destruct (dict_get d k).
Qed.

End DictLemmas.

Section MultiDictLemmas.
Implicit Types (md : MultiDict) (k : string).

Lemma md_contains_getitem md k :
  md_contains md k = true <-> exists value, md_getitem md k = ok value.
Proof.
  unfold md_contains, md_getitem, MultiDict in *.
  induction md as [|[k0 v0] md IH].
  - split; [done | by intros [? ?]].
  - rewrite filter_cons. cbn [existsb fst].
    destruct (String.eqb k0 k) eqn:E; case_decide; simpl in *;
      try congruence; split; eauto.
Qed.

Lemma md_contains_false md k :
  md_contains md k = false <-> md_getitem md k = raise (KeyError k).
Proof.
  unfold md_contains, md_getitem, MultiDict in *.
  induction md as [|[k0 v0] md IH].
  - done.
  - rewrite filter_cons. cbn [existsb fst].
    destruct (String.eqb k0 k) eqn:E; case_decide; simpl in *;
      try congruence; done.
Qed.

Lemma md_getitem_app_other md k k' value :
  k' <> k -> md_getitem (md ++ [(k', value)]) k = md_getitem md k.
Proof.
  intros Hne. unfold md_getitem, MultiDict in *. rewrite filter_app, filter_cons.
  apply String.eqb_neq in Hne. case_decide; simpl in *; [congruence|].
  by rewrite filter_nil, app_nil_r.
Qed.

Lemma md_contains_app_other md k k' value :
  k' <> k -> md_contains (md ++ [(k', value)]) k = md_contains md k.
Proof.
  intros Hne. unfold md_contains. rewrite existsb_app. simpl.
  apply String.eqb_neq in Hne. rewrite Hne. by rewrite !orb_false_r.
Qed.

End MultiDictLemmas.

Lemma requested_Some (self : View) (name value : string) :
  requested self name = Some value <->
  md_getitem (GET (request self)) name = ok value.
Proof.
  unfold requested. destruct (md_getitem _ _); split; intros [=]; by subst.
Qed.

Lemma requested_Some_contains (self : View) (name value : string) :
  requested self name = Some value ->
  md_contains (GET (request self)) name = true.
Proof. intros Hr%requested_Some. apply md_contains_getitem. eauto. Qed.

Lemma requested_None (self : View) (name : string) :
  requested self name = None <->
  md_contains (GET (request self)) name = false.
Proof.
  unfold requested. rewrite md_contains_false.
  destruct (md_getitem _ _) as [e|value] eqn:E.
  - split; [|done]. intros _.
    destruct (md_contains (GET (request self)) name) eqn:Ec.
    + apply md_contains_getitem in Ec as [? Ec]. by rewrite Ec in E.
    + apply md_contains_false in Ec. by rewrite <- E, Ec.
  - split; intros [=].
Qed.

(* ================================================================== *)
(** * Ordering *)
(* ================================================================== *)

Section OrderLemmas.
Implicit Types (d : pydict OrderEntry) (orders : list (string * bool)).


Lemma unknown_keys d orders :
  (filter (fun order => dict_contains d order.1 = false) orders).*1
  = filter (fun k => dict_contains d k = false) orders.*1.
Proof.
  induction orders as [|[k b] orders IH]; [done|].
  rewrite fmap_cons, !filter_cons. simpl.
  case_decide; [rewrite fmap_cons|]; by rewrite IH.
Qed.

Lemma some_unknown d orders :
  existsb (fun order => negb (dict_contains d order.1)) orders = true
  <-> filter (fun k => dict_contains d k = false) orders.*1 <> [].
Proof.
  induction orders as [|[k b] orders IH]; [done|].
  rewrite fmap_cons, filter_cons. simpl.
  destruct (dict_contains d k) eqn:E; case_decide; simpl; try congruence.
  split; done.
Qed.

Lemma select_known d orders :
  filter (fun k => dict_contains d k = false) orders.*1 = [] ->
  exists selected,
    collect ((fun order => entry <- getitem d order.1 ;; ok (entry, order.2))
             <$> orders) = ok selected
    /\ Forall2 (fun order item =>
                  dict_get d order.1 = Some item.1 /\ item.2 = order.2)
               orders selected.
Proof.
  induction orders as [|[k b] orders IH]; intros Hknown.
  - exists []. split; [done | constructor].
  - rewrite fmap_cons, filter_cons in Hknown. simpl in Hknown.
    case_decide as Hk; [done|]. destruct (IH Hknown) as (selected & Hsel & Hall).
    unfold dict_contains in Hk. simpl in Hk.
    destruct (dict_get d k) as [entry|] eqn:E; [|done].
    exists ((entry, b) :: selected). split.
    + rewrite fmap_cons. cbn [collect fst snd]. unfold getitem at 1.
      rewrite E. cbn [bind ok]. by rewrite Hsel.
    + by constructor.
Qed.

(** The generator once the parameter is known to be present and non-empty. *)
Lemma order_clauses_given (self : View) (value : string) :
  requested self "order" = Some value ->
  value <> "" ->
  CRUDView.order_clauses self
  = let orders := order_token <$> split "," value in
    if existsb (fun order => negb (dict_contains (accept_order self) order.1))
               orders
    then mkGenerator []
           (inl (HTTPServerError
                   ("not implemented, order by "
                    +:+ join ", "
                          (filter (fun k => dict_contains (accept_order self) k = false)
                                  orders.*1))))
    else match collect ((fun order =>
                           entry <- getitem (accept_order self) order.1 ;;
                           ok (entry, order.2)) <$> orders) with
         | inl e => mkGenerator [] (inl e)
         | inr selected => mkGenerator (flat_map expand_order selected) (inr None)
         end.
Proof.
  intros Hreq Hne.
  pose proof (requested_Some_contains _ _ _ Hreq) as Hin.
  apply requested_Some in Hreq.
  pose proof (proj2 (String.eqb_neq value "") Hne) as Hnot.
  unfold CRUDView.order_clauses. rewrite Hin, Hreq. unfold ok at 1. simpl negb.
  cbv iota. rewrite Hnot. by rewrite unknown_keys.
Qed.

End OrderLemmas.



(** An unregistered key mixed with registered ones: every unknown key is
    named, not only the first. *)
Example order_clauses_unknown_keys :
  star_args (CRUDView.order_clauses
    (Demo.PersonView (H := Demo.committing) 2 false
       (Demo.query [("order", "name desc,foo,full,bar desc")])))
  = raise (HTTPServerError "not implemented, order by foo, bar").
Proof. reflexivity. Qed.

(** A registered list of expressions expands with one direction. *)
Example order_clauses_expands_lists :
  star_args (CRUDView.order_clauses
    (Demo.PersonView (H := Demo.committing) 2 false
       (Demo.query [("order", "full desc,id")])))
  = ok [Desc (Attribute Demo.name_); Desc (Attribute Demo.id_);
        Attribute Demo.id_].
Proof. reflexivity. Qed.

(** C8. Without an [order] parameter, or with an empty one, the generator
    [order_clauses] stops at its first [return]: the list [[False]] is its
    return value and no element is yielded, so [order_by] receives no
    argument at all. *)
Theorem order_clauses_without_order (self : View) :
  requested self "order" = None \/ requested self "order" = Some "" ->
  yielded (CRUDView.order_clauses self) = []
  /\ finished (CRUDView.order_clauses self) = inr (Some [false])
  /\ star_args (CRUDView.order_clauses self) = ok [].
Proof.
  intros [Habsent | Hempty]; unfold CRUDView.order_clauses.
  - apply requested_None in Habsent. by rewrite Habsent.
  - rewrite (requested_Some_contains _ _ _ Hempty).
    apply requested_Some in Hempty. by rewrite Hempty.
Qed.

Lemma order_clauses_without_order_witness :
  yielded (CRUDView.order_clauses (CRUDView_base (Demo.query []))) = []
  /\ finished (CRUDView.order_clauses (CRUDView_base (Demo.query [])))
     = inr (Some [false])
  /\ star_args (CRUDView.order_clauses (CRUDView_base (Demo.query []))) = ok [].
Proof.
  apply (order_clauses_without_order (CRUDView_base (Demo.query []))).
  left. reflexivity.
Defined.

(* ================================================================== *)
(** * Searching: count and pagination *)
(* ================================================================== *)

Section SearchLemmas.
Context `{DataLayer}.


Lemma forallb_criteria_app (c1 c2 : list Criterion) (r : Row) :
  forallb (fun c => holds c r) (c1 ++ c2) = true
  <-> forallb (fun c => holds c r) c2 = true
      /\ forallb (fun c => holds c r) c1 = true.
Proof. rewrite forallb_app, andb_true_iff. tauto. Qed.

(** Filtering a query twice keeps the rows that satisfy both lists. *)
Lemma query_filter_twice (q : Query) (c1 c2 : list Criterion) :
  q_rows (query_filter (query_filter q c1) c2)
  = filter (fun r => forallb (fun c => holds c r.2) (c1 ++ c2) = true) (q_rows q).
Proof.
  simpl. rewrite list_filter_filter. apply list_filter_iff.
  intros r. by rewrite forallb_criteria_app.
Qed.

Lemma search_rows (self : View) (db : Store) (criteria : list Criterion) :
  q_rows (query_filter
            (query_filter (CRUDView.get_list_base self db) [context_filter self])
            criteria)
  = matching (context_filter self :: criteria) db.
Proof. by rewrite query_filter_twice. Qed.

(** [get_search_results] once the filters and the pager are resolved: the
    count is taken, then the ordering is resolved on the view as the subquery
    branch leaves it, then the rows are fetched. *)
Lemma get_search_results_resolved (self : View) (db : Store)
  (criteria : list Criterion) (pager : option slice) :
  CRUDView.query_filters self = ok criteria ->
  CRUDView.pager_slice self = ok pager ->
  CRUDView.get_search_results self db None
  = (searched self,
     clauses <- star_args (CRUDView.order_clauses (searched self)) ;;
     ok (window pager
           (order_rows clauses (matching (context_filter self :: criteria) db)).*2,
         length (matching (context_filter self :: criteria) db))).
Proof.
  intros Hfilters Hpager. unfold CRUDView.get_search_results, searched.
  rewrite Hfilters, Hpager. unfold ok at 1 2. cbv iota.
  unfold query_count. rewrite search_rows.
  destruct (use_subquery_after_filter self);
    [change (q_columns (subquery _)) with (mapped_columns (target_type self))|];
    (destruct (star_args (CRUDView.order_clauses _)) as [e|clauses];
     [done|]); simpl bind; unfold CRUDView.fetch, window, query_getitem, query_all;
    unfold order_by, subquery; cbn [q_rows]; by rewrite search_rows.
Qed.

End SearchLemmas.



Section PagerLemmas.


End PagerLemmas.



Example list_slice_second_page :
  list_slice (seq 0 25) (mkSlice 10 20) = seq 10 10.
Proof. reflexivity. Qed.

(* ================================================================== *)
(** * Single-row lookup *)
(* ================================================================== *)

Section LookupLemmas.
Context `{DataLayer}.

(** The lock requested does not change the rows a lookup sees. *)
Lemma get_by_id_rows (self : View) (db : Store) (lock : bool) :
  CRUDView.get_by_id self db lock
  = match query_one
            (mkQuery (matching [context_filter self; identity_filter self] db)
                     [] None) with
    | inl NoResultFound => raise HTTPNotFound
    | other => other
    end.
Proof.
  unfold CRUDView.get_by_id, query_one.
  destruct lock, (is_AliasedClass (target_type self));
    change (q_rows (query_filter _ _))
      with (matching [context_filter self; identity_filter self] db);
    simpl q_rows;
    by destruct (matching [context_filter self; identity_filter self] db)
      as [|row [|row' rows]].
Qed.


(** A lookup that fails makes [update] and [delete] fail the same way, unless
    the failure is a staleness error, and leaves the store alone. *)
Lemma update_lookup_fails (self : View) (db : Store) (e : Exn) :
  CRUDView.get_by_id self db (update_lock self) = raise e ->
  CRUDView.update self db
  = (db, raise (match e with StaleDataError m => HTTPConflict m | _ => e end)).
Proof.
  intros Hlookup. unfold CRUDView.update, with_transaction, CRUDView.update_body.
  rewrite Hlookup. by destruct e.
Qed.

Lemma delete_lookup_fails (self : View) (db : Store) (e : Exn) :
  CRUDView.get_by_id self db false = raise e ->
  CRUDView.delete self db = (db, raise e).
Proof.
  intros Hlookup. unfold CRUDView.delete, with_transaction.
  by rewrite Hlookup.
Qed.

End LookupLemmas.

(** C7. A lookup by identity keeps the rows that satisfy the context and the
    identity restriction. With no such row it raises [HTTPNotFound] (404), and
    so do [get], [update] and [delete]; with exactly one it returns that row;
    with more than one the [MultipleResultsFound] of the query propagates: no
    row is picked and no [HTTPNotFound] is reported. In neither failure is the
    store changed. *)
Theorem get_by_id_requires_one_row `{DataLayer} (self : View) (db : Store)
  (lock : bool) :
  match matching [context_filter self; identity_filter self] db with
  | [] =>
      CRUDView.get_by_id self db lock = raise HTTPNotFound
      /\ status_code HTTPNotFound = Some 404
      /\ CRUDView.get self db = raise HTTPNotFound
      /\ CRUDView.update self db = (db, raise HTTPNotFound)
      /\ CRUDView.delete self db = (db, raise HTTPNotFound)
  | [row] =>
      CRUDView.get_by_id self db lock = ok row
      /\ CRUDView.get self db = ok (Body [(target_name self, row.2)])
  | _ :: _ :: _ =>
      CRUDView.get_by_id self db lock = raise MultipleResultsFound
      /\ CRUDView.get self db = raise MultipleResultsFound
      /\ CRUDView.update self db = (db, raise MultipleResultsFound)
      /\ CRUDView.delete self db = (db, raise MultipleResultsFound)
  end.
Proof.
  pose proof (get_by_id_rows self db) as Hrows.
  pose proof (update_lookup_fails self db) as Hupdate.
  pose proof (delete_lookup_fails self db) as Hdelete.
  unfold CRUDView.get. rewrite (Hrows false) in *.
  rewrite (Hrows (update_lock self)) in Hupdate. rewrite (Hrows lock).
  unfold query_one in *. simpl q_rows in *.
  destruct (matching [context_filter self; identity_filter self] db)
    as [|row [|row' rows]]; simpl.
  - rewrite (Hupdate HTTPNotFound), (Hdelete HTTPNotFound); done.
  - done.
  - rewrite (Hupdate MultipleResultsFound), (Hdelete MultipleResultsFound); done.
Qed.

Example get_by_id_no_row :
  CRUDView.get (H := Demo.committing)
    (Demo.PersonView (H := Demo.committing) 7 false (Demo.query [])) Demo.people
  = raise HTTPNotFound.
Proof. reflexivity. Qed.

Example get_by_id_two_rows :
  CRUDView.get (H := Demo.committing)
    (Demo.PersonView (H := Demo.committing) 2 false (Demo.query []))
    (Demo.people ++ [Demo.person 2 "bea" 19 1])
  = raise MultipleResultsFound.
Proof. reflexivity. Qed.

(* ================================================================== *)
(** * Resolving the filters of a request *)
(* ================================================================== *)

Section FilterLemmas.
Variable self : View.

Lemma filter_results_all :
  CRUDView.filter_results self None
  = collect (invoke self
             <$> filter (fun k => md_contains (GET (request self)) k = true)
                        (dict_keys (filters self))).
Proof.
  unfold CRUDView.filter_results. do 2 f_equal.
  apply list_filter_iff. intros k. by rewrite andb_true_r.
Qed.

(** A parameter that names no filter changes no invocation. *)
Lemma invocations_ignore (k value : string) (ks : list string) :
  ~ In k ks ->
  invoke (with_param self k value)
  <$> filter (fun k' => md_contains (GET (request self) ++ [(k, value)]) k' = true) ks
  = invoke self <$> filter (fun k' => md_contains (GET (request self)) k' = true) ks.
Proof.
  induction ks as [|k' ks IH]; intros Hnot; [done|].
  assert (k <> k') as Hne by (intros ->; apply Hnot; by left).
  assert (~ In k ks) as Hrest by (intros Hin; apply Hnot; by right).
  rewrite !filter_cons. rewrite (md_contains_app_other _ _ _ _ Hne).
  case_decide; [|by apply IH].
  rewrite !fmap_cons, (IH Hrest). f_equal.
  unfold invoke. simpl. by rewrite (md_getitem_app_other _ _ _ _ Hne).
Qed.

(** Every registry key the request carries is invoked with its raw value. *)
Lemma invocations_succeed (ks : list string) :
  (forall k, In k ks -> In k (dict_keys (filters self))) ->
  (forall k builder raw,
      dict_get (filters self) k = Some builder ->
      requested self k = Some raw ->
      exists r, builder raw = ok r) ->
  exists tmp,
    collect (invoke self
             <$> filter (fun k => md_contains (GET (request self)) k = true) ks)
    = ok tmp
    /\ Forall2 (fun k r =>
                  exists builder raw,
                    dict_get (filters self) k = Some builder
                    /\ requested self k = Some raw
                    /\ builder raw = ok r)
               (filter (fun k => md_contains (GET (request self)) k = true) ks)
               tmp.
Proof.
  intros Hkeys Hbuilders. induction ks as [|k ks IH].
  - exists []. split; [done | constructor].
  - destruct IH as (tmp & Htmp & Hall); [intros k' Hin; apply Hkeys; by right|].
    rewrite filter_cons. case_decide as Hk; [|by exists tmp].
    destruct (dict_get_key (filters self) k (Hkeys k ltac:(by left)))
      as [builder Hbuilder].
    apply md_contains_getitem in Hk as [raw Hraw].
    destruct (Hbuilders k builder raw Hbuilder) as [r Hr];
      [by apply requested_Some|].
    exists (r :: tmp). split.
    + rewrite fmap_cons. cbn [collect]. rewrite Htmp.
      unfold invoke at 1, getitem. rewrite Hbuilder, Hraw. simpl. by rewrite Hr.
    + constructor; [|done]. exists builder, raw.
      by rewrite requested_Some.
Qed.

Lemma criteria_contributions (tmp : list FilterResult) :
  CRUDView.single_criteria tmp ++ CRUDView.sequence_criteria tmp
  ≡ₚ flat_map contribution tmp.
Proof.
  unfold CRUDView.single_criteria, CRUDView.sequence_criteria.
  induction tmp as [|r tmp IH]; [done|].
  destruct r as [|c|items|items]; simpl.
  - done.
  - by constructor.
  - rewrite Permutation_app_swap_app. by apply Permutation_app.
  - rewrite Permutation_app_swap_app. by apply Permutation_app.
Qed.

End FilterLemmas.

(** C6. A query parameter whose key is not in the filter registry is ignored.
    The builder of every registry key the request carries is invoked with the
    raw value of the parameter; when these calls return, the criteria are one
    flat list made of what each result contributes (nothing for [None], the
    criterion itself for a single result, one criterion per element other
    than [None] for a list or tuple), followed by the runtime filters. *)
Theorem query_filters_resolution (self : View) :
  (forall k value,
      dict_get (filters self) k = None ->
      CRUDView.query_filters (with_param self k value)
      = CRUDView.query_filters self)
  /\ ((forall k builder raw,
         dict_get (filters self) k = Some builder ->
         requested self k = Some raw ->
         exists r, builder raw = ok r) ->
      exists tmp user,
        Forall2 (fun k r =>
                   exists builder raw,
                     dict_get (filters self) k = Some builder
                     /\ requested self k = Some raw
                     /\ builder raw = ok r)
                (filter (fun k => md_contains (GET (request self)) k = true)
                        (dict_keys (filters self)))
                tmp
        /\ user ≡ₚ flat_map (fun r => match r with
                                      | FNone => []
                                      | FSingle c => [c]
                                      | FList items | FTuple items => omap id items
                                      end) tmp
        /\ CRUDView.query_filters self = ok (user ++ runtime_filters self)).
Proof.
  split.
  - intros k value Hunknown.
    unfold CRUDView.query_filters, CRUDView.get_query_filters.
    rewrite !filter_results_all. simpl filters. simpl GET.
    by rewrite invocations_ignore by (by apply dict_get_None).
  - intros Hbuilders.
    destruct (invocations_succeed self (dict_keys (filters self)))
      as (tmp & Htmp & Hall); [done | done |].
    exists tmp, (CRUDView.single_criteria tmp ++ CRUDView.sequence_criteria tmp).
    split; [done|]. split; [apply criteria_contributions|].
    unfold CRUDView.query_filters, CRUDView.get_query_filters.
    rewrite filter_results_all, Htmp. simpl. by rewrite app_assoc.
Qed.

(** A registry whose builders return every kind of result. *)
Lemma query_filters_resolution_witness :
  let self :=
    {| filters := Demo.mixed_registry; accept_order := [];
       target_type := mkTarget false []; target_name := "object";
       update_lock := false; use_subquery_after_filter := false;
       identity_filter := Literal false; context_filter := Literal true;
       runtime_filters := [TextClause "tenant = 1"];
       request := Demo.query [("many", "a"); ("other", "x"); ("none", "b");
                              ("one", "c")] |} in
  exists tmp user,
    Forall2 (fun k r =>
               exists builder raw,
                 dict_get (filters self) k = Some builder
                 /\ requested self k = Some raw
                 /\ builder raw = ok r)
            ["none"; "one"; "many"] tmp
    /\ user ≡ₚ flat_map contribution tmp
    /\ CRUDView.query_filters self = ok (user ++ [TextClause "tenant = 1"]).
Proof.
  intros self.
  apply (proj2 (query_filters_resolution self)).
  intros k builder raw Hk _. cbn -[String.eqb] in Hk.
  repeat (destruct (String.eqb _ k); [injection Hk as <-; eauto|]).
  discriminate.
Defined.

Example query_filters_mixed :
  CRUDView.query_filters
    {| filters := Demo.mixed_registry; accept_order := [];
       target_type := mkTarget false []; target_name := "object";
       update_lock := false; use_subquery_after_filter := false;
       identity_filter := Literal false; context_filter := Literal true;
       runtime_filters := [TextClause "tenant = 1"];
       request := Demo.query [("many", "a"); ("other", "x"); ("none", "b");
                              ("one", "c")] |}
  = ok [TextClause "c"; TextClause "a"; Literal true; TextClause "tenant = 1"].
Proof. reflexivity. Qed.

(* ================================================================== *)
(** * [update]: conflicts and the transaction *)
(* ================================================================== *)

Section UpdateLemmas.
Context `{DataLayer}.


End UpdateLemmas.


Section DemoLemmas.


End DemoLemmas.


Example update_keeps_other_errors :
  CRUDView.update (H := Demo.committing)
    (Demo.PersonView (H := Demo.committing) 2 false (Demo.query []))
    Demo.people
  = (Demo.people, raise (ValueError "no body")).
Proof. reflexivity. Qed.

Example update_commits_matching_version :
  (CRUDView.update (H := Demo.committing)
     (Demo.PersonView (H := Demo.committing) 2 false
        (Demo.body [("age", PyInt 26); ("version", PyInt 1)])) Demo.people).1
  = [Demo.person 1 "ann" 31 4; Demo.person 2 "bob" 26 2;
     Demo.person 3 "cy" 47 2].
Proof. reflexivity. Qed.

(* ================================================================== *)
(** * [auto_filters] *)
(* ================================================================== *)

Section AutoFilterLemmas.
Context `{DataLayer}.
Variables (target : Target) (prefix : string).

Lemma candidate_keys_distinct (item : Descriptor) :
  NoDup (candidate_keys prefix item).
Proof.
  unfold candidate_keys. set (k := prefix +:+ key item).
  assert (forall s, k <> k +:+ String "_" s) as Hbase.
  { intros s Heq. apply (f_equal String.length) in Heq.
    rewrite append_length in Heq. simpl in Heq. lia. }
  assert (forall s t : string, s <> t -> k +:+ s <> k +:+ t) as Hsuffix.
  { intros s t Hne Heq. by apply append_inj_r in Heq. }
  repeat (apply NoDup_cons; split;
          [rewrite ?not_elem_of_cons; repeat split;
           try apply Hbase; try (apply Hsuffix; discriminate);
           apply not_elem_of_nil|]).
  apply NoDup_nil_2.
Qed.

(** One turn of the loop changes no key outside the names of its field. *)
Lemma auto_filters_item_other (ret : pydict Builder) (item : Descriptor)
  (k : string) :
  ~ In k (candidate_keys prefix item) ->
  dict_get (CRUDView.auto_filters_item target prefix ret item) k = dict_get ret k.
Proof.
  unfold candidate_keys, CRUDView.auto_filters_item. simpl. intros Hk.
  destruct (has_String_type item); rewrite !dict_get_set_ne; tauto.
Qed.

Lemma auto_filters_fold_other (items : list Descriptor) (ret : pydict Builder)
  (k : string) :
  ~ In k (flat_map (candidate_keys prefix) items) ->
  dict_get (fold_left (CRUDView.auto_filters_item target prefix) items ret) k
  = dict_get ret k.
Proof.
  revert ret. induction items as [|item items IH]; intros ret Hk; [done|].
  cbn [fold_left flat_map] in *. rewrite in_app_iff in Hk.
  rewrite IH by tauto. apply auto_filters_item_other. tauto.
Qed.

(** What one turn of the loop stores under the names of its own field. *)
Lemma auto_filters_item_own (ret : pydict Builder) (item : Descriptor) :
  let k := prefix +:+ key item in
  let ret' := CRUDView.auto_filters_item target prefix ret item in
  dict_get ret' k = Some (CRUDView.compare_with target OpEq item)
  /\ dict_get ret' (k +:+ "_gt") = Some (CRUDView.compare_with target OpGt item)
  /\ dict_get ret' (k +:+ "_ge") = Some (CRUDView.compare_with target OpGe item)
  /\ dict_get ret' (k +:+ "_lt") = Some (CRUDView.compare_with target OpLt item)
  /\ dict_get ret' (k +:+ "_le") = Some (CRUDView.compare_with target OpLe item)
  /\ dict_get ret' (k +:+ "_like")
     = if has_String_type item then Some (CRUDView.ilike_with item)
       else dict_get ret (k +:+ "_like").
Proof.
  intros k ret'. subst ret'. unfold CRUDView.auto_filters_item. fold k.
  pose proof (candidate_keys_distinct item) as Hdistinct.
  unfold candidate_keys in Hdistinct. fold k in Hdistinct.
  repeat match goal with
         | Hnd : NoDup (_ :: _) |- _ =>
             apply NoDup_cons in Hnd as [? Hnd];
             repeat match goal with
                    | Hin : _ ∉ _ :: _ |- _ =>
                        apply not_elem_of_cons in Hin as [? Hin]
                    end
         end.
  destruct (has_String_type item);
    repeat split;
    repeat first [rewrite dict_get_set_eq; reflexivity
                 | rewrite dict_get_set_ne by congruence].
  all: reflexivity.
Qed.

End AutoFilterLemmas.

(** C5. Provided the names [f], [f_like], [f_gt], [f_ge],
    [f_lt], [f_le] derived from the mapped column fields do not collide
    between fields, the mapping returned by [auto_filters] holds, for every
    such field [f]: under [f] the builder of the equality comparison with the
    raw value coerced by [coerce_value] for the field's first column; under
    [f_gt], [f_ge], [f_lt], [f_le] the builders of the ordering comparisons
    with the same coercion; under [f_like] the builder of the
    case-insensitive match with ["%" + value + "%"] when the column type is a
    [String], and no entry when it is not. *)
Theorem auto_filters_derives_keys `{DataLayer} (cls_target_type : Target)
  (target : option Target) (prefix : string) (f : Descriptor) :
  let t := default cls_target_type target in
  let fields := filter (fun item => is_column_attribute item = true)
                       (all_orm_descriptors t) in
  let registry := CRUDView.auto_filters cls_target_type target prefix in
  let k := prefix +:+ key f in
  NoDup (flat_map (candidate_keys prefix) fields) ->
  In f fields ->
  (forall op name,
      In (op, name) [(OpEq, k); (OpGt, k +:+ "_gt"); (OpGe, k +:+ "_ge");
                     (OpLt, k +:+ "_lt"); (OpLe, k +:+ "_le")] ->
      exists builder,
        dict_get registry name = Some builder
        /\ forall x c cs,
             property f = Some (ColumnProperty c cs) ->
             builder x = (v <- coerce_value t c x false ;;
                          ok (FSingle (Comparison op f v))))
  /\ (has_String_type f = true ->
      exists builder,
        dict_get registry (k +:+ "_like") = Some builder
        /\ forall x, builder x = ok (FSingle (ILike f ("%" +:+ x +:+ "%"))))
  /\ (has_String_type f = false -> dict_get registry (k +:+ "_like") = None).
Proof.
  intros t fields registry k Hdistinct Hin.
  destruct (in_split _ _ Hin) as (before & after & Hsplit).
  subst registry. unfold CRUDView.auto_filters. fold t. fold fields.
  rewrite Hsplit in Hdistinct |- *.
  rewrite flat_map_app in Hdistinct. cbn [flat_map] in Hdistinct.
  apply NoDup_app in Hdistinct as (_ & Hbefore & Hrest).
  apply NoDup_app in Hrest as (_ & Hafter & _).
  rewrite fold_left_app. cbn [fold_left].
  set (ret := fold_left (CRUDView.auto_filters_item t prefix) before []).
  assert (forall name, In name (candidate_keys prefix f) ->
            dict_get (fold_left (CRUDView.auto_filters_item t prefix) after
                        (CRUDView.auto_filters_item t prefix ret f)) name
            = dict_get (CRUDView.auto_filters_item t prefix ret f) name)
    as Hkeep.
  { intros name Hname. apply auto_filters_fold_other.
    rewrite <- list_elem_of_In. apply Hafter. by apply list_elem_of_In. }
  assert (dict_get ret (k +:+ "_like") = None) as Hfresh.
  { subst ret. rewrite auto_filters_fold_other; [done|].
    intros Hold. apply list_elem_of_In in Hold.
    apply (Hbefore _ Hold). apply list_elem_of_In.
    rewrite in_app_iff. left. unfold candidate_keys. fold k. simpl. tauto. }
  destruct (auto_filters_item_own t prefix ret f)
    as (Heq & Hgt & Hge & Hlt & Hle & Hlike).
  fold k in Heq, Hgt, Hge, Hlt, Hle, Hlike.
  split; [|split].
  - intros op name Hop. exists (CRUDView.compare_with t op f).
    split.
    + rewrite Hkeep.
      * simpl in Hop.
        destruct Hop as [[= <- <-]|[[= <- <-]|[[= <- <-]|[[= <- <-]|[[= <- <-]|[]]]]]];
          assumption.
      * unfold candidate_keys. fold k. simpl in *.
        destruct Hop as [[= _ <-]|[[= _ <-]|[[= _ <-]|[[= _ <-]|[[= _ <-]|[]]]]]];
          tauto.
    + intros x c cs Hproperty.
      unfold CRUDView.compare_with, CRUDView.coerce_func. by rewrite Hproperty.
  - intros Htext. exists (CRUDView.ilike_with f). split; [|done].
    rewrite Hkeep, Hlike, Htext; [done|].
    unfold candidate_keys. fold k. simpl. tauto.
  - intros Hother. rewrite Hkeep, Hlike, Hother; [done|].
    unfold candidate_keys. fold k. simpl. tauto.
Qed.

Lemma auto_filters_derives_keys_witness :
  let registry := CRUDView.auto_filters (H := Demo.committing) Demo.Person None "" in
  (exists builder,
     dict_get registry "name" = Some builder
     /\ forall x c cs,
          property Demo.name_ = Some (ColumnProperty c cs) ->
          builder x = (v <- Demo.coerce Demo.Person c x false ;;
                       ok (FSingle (Comparison OpEq Demo.name_ v))))
  /\ (exists builder,
        dict_get registry "name_like" = Some builder
        /\ forall x, builder x
                     = ok (FSingle (ILike Demo.name_ ("%" +:+ x +:+ "%"))))
  /\ dict_get registry "age_like" = None.
Proof.
  intros registry.
  assert (NoDup (flat_map (candidate_keys "")
                   (filter (fun item => is_column_attribute item = true)
                           (all_orm_descriptors Demo.Person)))) as Hdistinct.
  { apply (bool_decide_unpack _). vm_compute. reflexivity. }
  destruct (auto_filters_derives_keys (H := Demo.committing) Demo.Person None ""
              Demo.name_ Hdistinct) as (Hcompare & Hlike & _).
  { simpl. tauto. }
  destruct (auto_filters_derives_keys (H := Demo.committing) Demo.Person None ""
              Demo.age_ Hdistinct) as (_ & _ & Hnone).
  { simpl. tauto. }
  split; [|split].
  - apply (Hcompare OpEq "name"). simpl. tauto.
  - apply Hlike. reflexivity.
  - apply Hnone. reflexivity.
Defined.

(** Without that proviso the statement fails, a field being named like a key
    derived from another one: with the integer columns [a] and [a_like], the mapping has
    the key [a_like] although [a] is not textual. *)
Lemma auto_filters_like_collision :
  ~ (forall (t : Target) (f : Descriptor),
       In f (filter (fun item => is_column_attribute item = true)
                    (all_orm_descriptors t)) ->
       (dict_contains (CRUDView.auto_filters (H := Demo.committing) t None "")
                      (key f +:+ "_like") = true
        <-> has_String_type f = true)).
Proof.
  intros Hiff.
  specialize (Hiff Demo.Measure (Demo.column_attribute "a" TInteger)).
  destruct Hiff as [Hlike _]; [simpl; tauto|].
  specialize (Hlike eq_refl). discriminate.
Qed.

(** In the same way the key of a field can hold the comparison of another:
    with the columns [x_gt] and [x], the key [x_gt] compares [x]. *)
Example auto_filters_key_collision :
  (builder <- getitem (CRUDView.auto_filters (H := Demo.committing)
                         Demo.Reading None "") "x_gt" ;;
   builder "5")
  = ok (FSingle (Comparison OpGt (Demo.column_attribute "x" TInteger) (PyInt 5))).
Proof. reflexivity. Qed.

(* ================================================================== *)
(** * The registries during request handling *)
(* ================================================================== *)

Section HandleLemmas.
Context `{DataLayer}.

(** The view after a search: changed only once filters and pager are
    resolved, and then as [searched] says. *)
Lemma search_view (self : View) (db : Store) :
  (CRUDView.get_search_results self db None).1
  = match CRUDView.query_filters self, CRUDView.pager_slice self with
    | inr _, inr _ => searched self
    | _, _ => self
    end.
Proof.
  unfold CRUDView.get_search_results, searched.
  destruct (CRUDView.query_filters self) as [e|criteria]; [done|].
  destruct (CRUDView.pager_slice self) as [e|pager]; [done|].
  destruct (use_subquery_after_filter self); by destruct (star_args _).
Qed.

Lemma handle_view (op : Operation) (self : View) (db : Store) :
  (handle op self db).1.1
  = match op with
    | OpList => (CRUDView.get_search_results self db None).1
    | _ => self
    end.
Proof.
  destruct op; simpl; try done.
  - unfold CRUDView.list.
    by destruct (CRUDView.get_search_results self db None) as [? [?|[? ?]]].
  - by destruct (CRUDView.insert self db).
  - by destruct (CRUDView.update self db).
  - by destruct (CRUDView.delete self db).
Qed.

End HandleLemmas.

(** C9. Handling an operation never changes the filter registry
    of the view. It leaves the order registry as registered for [get],
    [insert], [update] and [delete], and for [list] when
    [use_subquery_after_filter] is off. When the flag is on, [list] - once
    filters and pager are resolved - replaces the order registry of the
    instance by the columns of the subquery, and resolves [order] against
    those. *)
Theorem registries_during_handling `{DataLayer} (op : Operation) (self : View)
  (db : Store) :
  let self' := (handle op self db).1.1 in
  filters self' = filters self
  /\ (use_subquery_after_filter self = false \/ op <> OpList ->
      accept_order self' = accept_order self)
  /\ (op = OpList ->
      use_subquery_after_filter self = true ->
      forall criteria pager,
        CRUDView.query_filters self = ok criteria ->
        CRUDView.pager_slice self = ok pager ->
        accept_order self'
        = dict_of (prod_map id OrderOne <$> mapped_columns (target_type self))).
Proof.
  intros self'. subst self'. rewrite handle_view.
  destruct op; cbv iota.
  2: { rewrite search_view. unfold searched.
       split; [|split].
       - destruct (CRUDView.query_filters self), (CRUDView.pager_slice self),
           (use_subquery_after_filter self); done.
       - intros [Hoff | Hop]; [|done]. rewrite Hoff.
         by destruct (CRUDView.query_filters self), (CRUDView.pager_slice self).
       - intros _ Hon criteria pager -> ->. by rewrite Hon. }
  all: split; [done|]; split; [done | discriminate].
Qed.

Lemma registries_during_handling_witness :
  let self := Demo.PersonView (H := Demo.committing) 2 false
                (Demo.query [("order", "full")]) in
  accept_order (handle (H := Demo.committing) OpList self Demo.people).1.1
  = accept_order self.
Proof.
  intros self.
  apply (proj1 (proj2 (registries_during_handling (H := Demo.committing)
                         OpList self Demo.people))).
  left. reflexivity.
Defined.

(** With the flag on the order registry does change: the view registers the sort
    key [full]; listing replaces the registry by the subquery's columns, so
    the keys consulted are no longer the registered ones and [order=full] is
    refused. *)
Lemma list_rewrites_accept_order :
  let self := Demo.PersonView (H := Demo.committing) 2 true
                (Demo.query [("order", "full")]) in
  dict_keys (accept_order self) = ["id"; "name"; "age"; "version"; "full"]
  /\ dict_keys (accept_order
                  (handle (H := Demo.committing) OpList self Demo.people).1.1)
     = ["id"; "name"; "age"; "version"]
  /\ (handle (H := Demo.committing) OpList self Demo.people).2
     = raise (HTTPServerError "not implemented, order by full").
Proof. repeat split; reflexivity. Qed.

(* ================================================================== *)
(** * Rendering: the streamed body and the fallback string *)
(* ================================================================== *)

Section EncodingLemmas.



Context {Value BaseType : Type}.
Variable json_chunks :
  option BaseType -> Text * Text -> Value -> Generator Text unit.



End EncodingLemmas.



Example streaming_by_write :
  body_pieces <$>
    (_render Demo.chunks_of_digits None 0 ([44%N], [58%N]) [1; 2; 3]%N
       (Some Demo.fresh_response)).1
  = Some (ok [[Byte.x5b; Byte.x31]; [Byte.x2c; Byte.x32]; [Byte.x2c; Byte.x33];
              [Byte.x5d]]).
Proof. reflexivity. Qed.

Example str_encode_beyond_ascii :
  str_encode [233; 8364; 128512]%N
  = ok [Byte.xc3; Byte.xa9; Byte.xe2; Byte.x82; Byte.xac;
        Byte.xf0; Byte.x9f; Byte.x98; Byte.x80].
Proof. reflexivity. Qed.

(* ================================================================== *)
(** * Further properties of the view operations *)
(* ================================================================== *)

Section RowLemmas.
Context `{DataLayer}.

Lemma filter_imap_rows {A} (P : A -> Prop) `{!forall x, Decision (P x)}
  (f : nat -> nat) (l : list A) :
  (filter (fun p : nat * A => P p.2) (imap (fun n r => (f n, r)) l)).*2
  = filter P l.
Proof.
  revert f. induction l as [|x l IH]; intros f; [done|].
  rewrite imap_cons, !filter_cons. simpl.
  pose proof (IH (f ∘ S)) as IH'. unfold compose in *.
  case_decide; [rewrite fmap_cons|]; simpl; by rewrite IH'.
Qed.

(** The rows a restriction keeps, without their positions. *)
Lemma matching_rows (criteria : list Criterion) (db : Store) :
  (matching criteria db).*2 = filter (fun r => satisfies criteria r = true) db.
Proof.
  unfold matching.
  exact (filter_imap_rows (fun r => satisfies criteria r = true) id db).
Qed.

Lemma matching_lookup (criteria : list Criterion) (db : Store) (i : nat)
  (r : Row) :
  (i, r) ∈ matching criteria db ->
  db !! i = Some r /\ satisfies criteria r = true.
Proof.
  unfold matching. rewrite list_elem_of_filter, elem_of_lookup_imap.
  intros [Hsat (j & y & [= -> ->] & Hlookup)]. done.
Qed.

Lemma filter_unique_split {A} (P : A -> Prop) `{!forall x, Decision (P x)}
  (l : list A) (i : nat) (x : A) :
  l !! i = Some x ->
  filter P l = [x] ->
  filter P (take i l) = [] /\ filter P (drop (S i) l) = [].
Proof.
  intros Hlookup Hfilter.
  assert (P x) as Hx.
  { assert (x ∈ filter P l) as Hin by (rewrite Hfilter; by left).
    by apply list_elem_of_filter in Hin as [? _]. }
  rewrite <- (take_drop_middle l i x Hlookup), filter_app, filter_cons_True
    in Hfilter by done.
  destruct (filter P (take i l)) as [|y before]; simpl in Hfilter.
  - by injection Hfilter as ->.
  - injection Hfilter as _ Habsurd. by destruct before.
Qed.

(** [get] in terms of the rows alone. *)
Lemma get_rows (self : View) (db : Store) :
  CRUDView.get self db
  = match filter (fun r => satisfies [context_filter self; identity_filter self] r
                           = true) db with
    | [] => raise HTTPNotFound
    | [row] => ok (Body [(target_name self, row)])
    | _ :: _ :: _ => raise MultipleResultsFound
    end.
Proof.
  unfold CRUDView.get. rewrite get_by_id_rows, <- matching_rows.
  unfold query_one. simpl q_rows.
  by destruct (matching [context_filter self; identity_filter self] db)
    as [|[j r] [|[j' r'] rows]].
Qed.

Lemma get_by_id_found (self : View) (db : Store) (lock : bool) (i : nat)
  (old : Row) :
  CRUDView.get_by_id self db lock = ok (i, old) ->
  matching [context_filter self; identity_filter self] db = [(i, old)].
Proof.
  rewrite get_by_id_rows. unfold query_one. simpl q_rows.
  destruct (matching [context_filter self; identity_filter self] db)
    as [|[j r] [|[j' r'] rows]]; simpl; intros [=]. by subst.
Qed.

(** What a successful lookup says about the rows of the store. *)
Lemma get_by_id_unique (self : View) (db : Store) (lock : bool) (i : nat)
  (old : Row) :
  CRUDView.get_by_id self db lock = ok (i, old) ->
  db !! i = Some old
  /\ filter (fun r => satisfies [context_filter self; identity_filter self] r
                      = true) db = [old].
Proof.
  intros Hfound%get_by_id_found. split.
  - apply (matching_lookup [context_filter self; identity_filter self]).
    rewrite Hfound. by left.
  - by rewrite <- matching_rows, Hfound.
Qed.

End RowLemmas.

(** X1. Deleting the one row an identity selects, the commit storing the
    session's rows, leaves a store one row shorter in which the same
    identity selects nothing: a following [get] raises [HTTPNotFound]. *)
Theorem delete_then_get `{DataLayer} (self : View) (db : Store) (i : nat)
  (old : Row) :
  CRUDView.get_by_id self db false = ok (i, old) ->
  commit db (delete i db) = ok (delete i db) ->
  CRUDView.delete self db = (delete i db, ok HTTPOk)
  /\ S (length (delete i db)) = length db
  /\ CRUDView.get self (delete i db) = raise HTTPNotFound.
Proof.
  intros Hfound Hcommit.
  destruct (get_by_id_unique self db false i old Hfound) as [Hlookup Hunique].
  destruct (filter_unique_split _ db i old Hlookup Hunique) as [Hbefore Hafter].
  split; [|split].
  - unfold CRUDView.delete, with_transaction. rewrite Hfound. simpl.
    by rewrite Hcommit.
  - unfold Store in *. rewrite length_delete by eauto.
    apply lookup_lt_Some in Hlookup. lia.
  - rewrite get_rows. unfold Store in *.
    by rewrite delete_take_drop, filter_app, Hbefore, Hafter.
Qed.

Lemma delete_then_get_witness :
  CRUDView.delete (H := Demo.committing)
    (Demo.PersonView (H := Demo.committing) 2 false (Demo.query [])) Demo.people
  = ([Demo.person 1 "ann" 31 4; Demo.person 3 "cy" 47 2], ok HTTPOk)
  /\ S (length [Demo.person 1 "ann" 31 4; Demo.person 3 "cy" 47 2])
     = length Demo.people
  /\ CRUDView.get (H := Demo.committing)
       (Demo.PersonView (H := Demo.committing) 2 false (Demo.query []))
       [Demo.person 1 "ann" 31 4; Demo.person 3 "cy" 47 2]
     = raise HTTPNotFound.
Proof.
  apply (delete_then_get (H := Demo.committing)
           (Demo.PersonView (H := Demo.committing) 2 false (Demo.query []))
           Demo.people 1%nat (Demo.person 2 "bob" 25 1));
    reflexivity.
Defined.

(** X2. When [update] finds its row, applies the changes and the commit
    stores the session's rows, only that row of the store is replaced, and
    the answer is a fresh [get] on the new store: the changed row if it still
    satisfies the context and identity restrictions, [HTTPNotFound]
    otherwise - although the change is committed. *)
Theorem update_answers_by_rereading `{DataLayer} (self : View) (db : Store)
  (i : nat) (old old' : Row) (values : Values) :
  CRUDView.get_by_id self db (update_lock self) = ok (i, old) ->
  CRUDView.sanitize_input self = ok values ->
  entity_apply_changes old values = (old', ok tt) ->
  commit db (<[i := old']> db) = ok (<[i := old']> db) ->
  CRUDView.update self db
  = (<[i := old']> db,
     if satisfies [context_filter self; identity_filter self] old'
     then ok (Body [(target_name self, old')])
     else raise HTTPNotFound)
  /\ forall j, j <> i -> <[i := old']> db !! j = db !! j.
Proof.
  intros Hfound Hinput Hchanges Hcommit.
  destruct (get_by_id_unique self db _ i old Hfound) as [Hlookup Hunique].
  destruct (filter_unique_split _ db i old Hlookup Hunique) as [Hbefore Hafter].
  split; [|intros j Hj; by apply list_lookup_insert_ne].
  unfold CRUDView.update, with_transaction, CRUDView.update_body,
    CRUDView.apply_changes.
  rewrite Hfound. unfold ok in *. cbv iota beta. rewrite Hinput. cbv iota beta.
  rewrite Hchanges. cbv iota beta. rewrite Hcommit. cbv iota beta.
  f_equal. rewrite get_rows. unfold Store in *.
  rewrite insert_take_drop by (by apply lookup_lt_Some in Hlookup).
  rewrite filter_app, filter_cons, Hbefore, Hafter.
  by destruct (satisfies _ old'); case_decide.
Qed.

(** Changing Bob's id from 2 to 9 is committed, and the answer is 404. *)
Lemma update_answers_by_rereading_witness :
  CRUDView.update (H := Demo.committing)
    (Demo.PersonView (H := Demo.committing) 2 false
       (Demo.body [("id", PyInt 9)])) Demo.people
  = ([Demo.person 1 "ann" 31 4; Demo.person 9 "bob" 25 1;
      Demo.person 3 "cy" 47 2], raise HTTPNotFound)
  /\ forall j, j <> 1%nat ->
       [Demo.person 1 "ann" 31 4; Demo.person 9 "bob" 25 1;
        Demo.person 3 "cy" 47 2] !! j = Demo.people !! j.
Proof.
  apply (update_answers_by_rereading (H := Demo.committing)
           (Demo.PersonView (H := Demo.committing) 2 false
              (Demo.body [("id", PyInt 9)]))
           Demo.people 1%nat (Demo.person 2 "bob" 25 1)
           (Demo.person 9 "bob" 25 1) [("id", PyInt 9)]);
    reflexivity.
Defined.

(** X3. When the body carries the entity's fields, [apply_changes] accepts
    them and the commit stores the session's rows, [insert] appends the new
    row to the store and answers with the merged object; if the new row
    satisfies the context and identity restrictions of the view and no older
    row does, a following [get] returns the row as inserted. *)
Theorem insert_then_get `{DataLayer} (self : View) (db : Store)
  (values : Values) (obj' : Row) :
  CRUDView.sanitize_input self = ok values ->
  entity_apply_changes (new_instance (target_type self)) values = (obj', ok tt) ->
  commit db (db ++ [obj']) = ok (db ++ [obj']) ->
  CRUDView.insert self db
  = (db ++ [obj'],
     ok (Body [(target_name self,
                session_merge (db ++ [obj']) (length db) obj')]))
  /\ (filter (fun r => satisfies [context_filter self; identity_filter self] r
                       = true) db = [] ->
      satisfies [context_filter self; identity_filter self] obj' = true ->
      CRUDView.get self (db ++ [obj'])
      = ok (Body [(target_name self, obj')])).
Proof.
  intros Hinput Hchanges Hcommit. split.
  - unfold CRUDView.insert, with_transaction, CRUDView.apply_changes.
    rewrite Hinput. unfold ok in *. cbv iota beta. rewrite Hchanges.
    cbv iota beta. simpl. by rewrite Hcommit.
  - intros Hnone Hnew. rewrite get_rows. unfold Store in *.
    rewrite filter_app, Hnone, filter_cons, filter_nil. simpl.
    by case_decide.
Qed.

Lemma insert_then_get_witness :
  let self := Demo.PersonView (H := Demo.committing) 9 false
                (Demo.body [("id", PyInt 9); ("name", PyStr "dee")]) in
  let dee := [("id", PyInt 9); ("name", PyStr "dee")] in
  CRUDView.insert (H := Demo.committing) self Demo.people
  = (Demo.people ++ [dee], ok (Body [("person", dee)]))
  /\ CRUDView.get (H := Demo.committing) self (Demo.people ++ [dee])
     = ok (Body [("person", dee)]).
Proof.
  intros self dee.
  destruct (insert_then_get (H := Demo.committing) self Demo.people dee dee)
    as [Hinsert Hget]; [reflexivity..|].
  split; [exact Hinsert | by apply Hget].
Defined.

Section ListLemmas.
Context `{DataLayer}.

(** The three resolutions of a listing, in the order the code makes them. *)
Lemma list_cases (self : View) (db : Store) :
  CRUDView.list self db
  = match CRUDView.query_filters self with
    | inl e => (self, raise e)
    | inr criteria =>
        match CRUDView.pager_slice self with
        | inl e => (self, raise e)
        | inr pager =>
            match star_args (CRUDView.order_clauses (searched self)) with
            | inl e => (searched self, raise e)
            | inr clauses =>
                (searched self,
                 ok (Listing
                       (window pager
                          (order_rows clauses
                             (matching (context_filter self :: criteria) db)).*2)
                       (length (matching (context_filter self :: criteria) db))))
            end
        end
    end.
Proof.
  unfold CRUDView.list.
  destruct (CRUDView.query_filters self) as [e|criteria] eqn:Hfilters.
  { unfold CRUDView.get_search_results. by rewrite Hfilters. }
  destruct (CRUDView.pager_slice self) as [e|pager] eqn:Hpager.
  { unfold CRUDView.get_search_results. by rewrite Hfilters, Hpager. }
  rewrite (get_search_results_resolved self db criteria pager Hfilters Hpager).
  by destruct (star_args _).
Qed.

Lemma window_subseteq (pager : option slice) (rows : list Row) :
  window pager rows ⊆ rows.
Proof.
  destruct pager as [s|]; simpl; [|done]. unfold list_slice.
  etrans; [apply subseteq_take | apply subseteq_drop].
Qed.

Lemma window_length (pager : option slice) (rows : list Row) :
  (length (window pager rows) <= length rows)%nat.
Proof.
  destruct pager as [s|]; simpl; [|done]. unfold list_slice.
  rewrite length_take, length_drop. lia.
Qed.

End ListLemmas.

(** X4. When the store's ordering only permutes rows, every item of a
    listing is a row of the store that satisfies the context restriction and
    every resolved filter; a page never holds more items than the total, and
    without a pager it holds exactly as many. *)
Theorem list_returns_matching_rows `{DataLayer} (self self' : View) (db : Store)
  (items : list Row) (total : nat) :
  (forall clauses rows, order_rows clauses rows ≡ₚ rows) ->
  CRUDView.list self db = (self', ok (Listing items total)) ->
  exists criteria,
    CRUDView.query_filters self = ok criteria
    /\ (forall row, row ∈ items ->
          row ∈ db /\ satisfies (context_filter self :: criteria) row = true)
    /\ (length items <= total)%nat
    /\ (CRUDView.pager_slice self = ok None -> length items = total).
Proof.
  intros Hperm. rewrite list_cases.
  destruct (CRUDView.query_filters self) as [e|criteria]; [done|].
  destruct (CRUDView.pager_slice self) as [e|pager]; [done|].
  destruct (star_args _) as [e|clauses]; [done|]. intros [= _ <- <-].
  exists criteria. split; [done|].
  set (found := matching (context_filter self :: criteria) db).
  assert (length (order_rows clauses found).*2 = length found) as Hlen
    by (by rewrite length_fmap, (Hperm clauses found)).
  split; [|split].
  - intros row Hrow%window_subseteq.
    apply list_elem_of_fmap in Hrow as ([j r] & -> & Hr).
    rewrite (Hperm clauses found) in Hr.
    apply matching_lookup in Hr as [Hlookup Hsat].
    split; [by eapply list_elem_of_lookup_2 | done].
  - rewrite <- Hlen. apply window_length.
  - intros [= ->]. simpl. by rewrite Hlen.
Qed.

Lemma demo_order_permutes (clauses : list ColumnElement)
  (rows : list (nat * Row)) :
  order_rows (DataLayer := Demo.committing) clauses rows ≡ₚ rows.
Proof.
  simpl. unfold Demo.sort_rows.
  destruct clauses as [|[| |] ?]; try done. symmetry. apply Permutation_rev.
Qed.

Lemma list_returns_matching_rows_witness :
  exists criteria,
    CRUDView.query_filters
      (Demo.PersonView (H := Demo.committing) 2 false
         (Demo.query [("age_gt", "26"); ("pageSize", "1"); ("page", "1")]))
    = ok criteria
    /\ (forall row, row ∈ [Demo.person 3 "cy" 47 2] ->
          row ∈ Demo.people
          /\ satisfies (H := Demo.committing) (Literal true :: criteria) row
             = true)
    /\ (length [Demo.person 3 "cy" 47 2] <= 2)%nat
    /\ (CRUDView.pager_slice
          (Demo.PersonView (H := Demo.committing) 2 false
             (Demo.query [("age_gt", "26"); ("pageSize", "1"); ("page", "1")]))
        = ok None -> length [Demo.person 3 "cy" 47 2] = 2%nat).
Proof.
  eapply (list_returns_matching_rows (H := Demo.committing)
            (Demo.PersonView (H := Demo.committing) 2 false
               (Demo.query [("age_gt", "26"); ("pageSize", "1"); ("page", "1")]))
            _ Demo.people).
  - apply demo_order_permutes.
  - reflexivity.
Defined.

(* ================================================================== *)
(** * Further properties of filters, ordering and pagination *)
(* ================================================================== *)

Section CollectLemmas.

Lemma collect_raises {A} (l : list (Result A)) (e : Exn) :
  In (inl e) l -> exists e', collect l = raise e'.
Proof.
  induction l as [|[e0|a] l IH]; simpl; [done | eauto |].
  intros [[=] | Hin]. destruct (IH Hin) as [e' ->]. by exists e'.
Qed.

End CollectLemmas.

(** X5. A builder that raises on the value of its parameter is not dropped:
    the resolution of the filters raises, and so does the listing, the view
    being left as it was. *)
Theorem failing_filter_fails_listing `{DataLayer} (self : View) (db : Store)
  (k : string) (builder : Builder) (raw : string) (e : Exn) :
  dict_get (filters self) k = Some builder ->
  requested self k = Some raw ->
  builder raw = raise e ->
  exists e',
    CRUDView.query_filters self = raise e'
    /\ CRUDView.list self db = (self, raise e').
Proof.
  intros Hbuilder Hraw Hraise.
  assert (exists e', CRUDView.filter_results self None = raise e')
    as [e' Hresults].
  { rewrite filter_results_all. apply (collect_raises _ e).
    apply list_elem_of_In, list_elem_of_fmap. exists k. split.
    - unfold invoke, getitem. rewrite Hbuilder. simpl.
      apply requested_Some in Hraw. rewrite Hraw. simpl. by rewrite Hraise.
    - apply list_elem_of_filter. split.
      + by apply requested_Some_contains in Hraw.
      + apply list_elem_of_In.
        destruct (in_dec String.string_dec k (dict_keys (filters self)))
          as [|Hnot]; [done|].
        apply dict_get_None in Hnot. congruence. }
  exists e'.
  assert (CRUDView.query_filters self = raise e') as Hfilters.
  { unfold CRUDView.query_filters, CRUDView.get_query_filters.
    by rewrite Hresults. }
  split; [done|]. by rewrite list_cases, Hfilters.
Qed.

Lemma failing_filter_fails_listing_witness :
  exists e',
    CRUDView.query_filters
      (Demo.PersonView (H := Demo.committing) 2 false
         (Demo.query [("age_gt", "2x6")])) = raise e'
    /\ CRUDView.list (H := Demo.committing)
         (Demo.PersonView (H := Demo.committing) 2 false
            (Demo.query [("age_gt", "2x6")])) Demo.people
       = (Demo.PersonView (H := Demo.committing) 2 false
            (Demo.query [("age_gt", "2x6")]), raise e').
Proof.
  apply (failing_filter_fails_listing (H := Demo.committing)
           (Demo.PersonView (H := Demo.committing) 2 false
              (Demo.query [("age_gt", "2x6")]))
           Demo.people "age_gt"
           (CRUDView.compare_with (H := Demo.committing) Demo.Person OpGt
              Demo.age_)
           "2x6"
           (ValueError "invalid literal for int() with base 10: 2x6"));
    reflexivity.
Defined.

(** X6. Whatever the request, every element [order_clauses] yields is an
    expression of the order registry, or one of the expressions of a
    registered list, as it is or descending: the [order] parameter cannot
    bring any other expression into the query. *)
Theorem order_clauses_yield_registered (self : View) (e : ColumnElement) :
  e ∈ yielded (CRUDView.order_clauses self) ->
  exists k entry e0,
    dict_get (accept_order self) k = Some entry
    /\ match entry with
       | OrderOne e1 => e0 = e1
       | OrderMany es => e0 ∈ es
       end
    /\ (e = e0 \/ e = Desc e0).
Proof.
  destruct (requested self "order") as [value|] eqn:Hreq.
  2: { apply requested_None in Hreq. unfold CRUDView.order_clauses.
       rewrite Hreq. simpl. by intros ?%elem_of_nil. }
  destruct (String.eqb_spec value "") as [->|Hne].
  { unfold CRUDView.order_clauses.
    rewrite (requested_Some_contains _ _ _ Hreq).
    apply requested_Some in Hreq. rewrite Hreq. simpl.
    by intros ?%elem_of_nil. }
  rewrite (order_clauses_given self value Hreq Hne). cbv zeta.
  set (orders := order_token <$> split "," value).
  destruct (existsb _ orders) eqn:Hex; [by intros ?%elem_of_nil|].
  assert (filter (fun k => dict_contains (accept_order self) k = false)
                 orders.*1 = []) as Hknown.
  { destruct (decide (filter (fun k => dict_contains (accept_order self) k = false)
                             orders.*1 = [])) as [|Hsome]; [done|].
    apply some_unknown in Hsome. congruence. }
  destruct (select_known (accept_order self) orders Hknown)
    as (selected & -> & Hall).
  simpl. intros Hin%list_elem_of_In.
  apply in_flat_map in Hin as ([entry descending] & Hitem & He).
  apply list_elem_of_In, list_elem_of_lookup_1 in Hitem as [i Hi].
  destruct (Forall2_lookup_r _ _ _ _ _ Hall Hi) as ([k b] & _ & Hentry & _).
  simpl in *. unfold expand_order, directed in He. simpl in He.
  destruct entry as [e1|es].
  - exists k, (OrderOne e1), e1. split; [done|]. split; [done|].
    destruct He as [<-|[]]. destruct descending; tauto.
  - apply list_elem_of_In, list_elem_of_fmap in He as (e0 & -> & He0).
    exists k, (OrderMany es), e0. split; [done|]. split; [done|].
    destruct descending; tauto.
Qed.

Lemma order_clauses_yield_registered_witness :
  exists k entry e0,
    dict_get
      (accept_order
         (Demo.PersonView (H := Demo.committing) 2 false
            (Demo.query [("order", "full desc")]))) k = Some entry
    /\ match entry with
       | OrderOne e1 => e0 = e1
       | OrderMany es => e0 ∈ es
       end
    /\ (Desc (Attribute Demo.id_) = e0 \/ Desc (Attribute Demo.id_) = Desc e0).
Proof.
  apply (order_clauses_yield_registered
           (Demo.PersonView (H := Demo.committing) 2 false
              (Demo.query [("order", "full desc")]))
           (Desc (Attribute Demo.id_))).
  simpl. right. left.
Defined.

Section PagerFailureLemmas.


End PagerFailureLemmas.


(* ================================================================== *)
(** * Further properties of the derived registries *)
(* ================================================================== *)

Section RegistryLemmas.
Context {V : Type}.
Implicit Types (d : pydict V) (k : string) (v : V).

Lemma dict_contains_set d k v k' :
  dict_contains (dict_set d k v) k' = String.eqb k k' || dict_contains d k'.
Proof.
  unfold dict_contains. rewrite dict_get_set. by destruct (String.eqb k k').
Qed.

Lemma dict_set_In d k v k' v' :
  In (k', v') (dict_set d k v) -> (k' = k /\ v' = v) \/ In (k', v') d.
Proof.
  induction d as [|[k0 v0] d IH]; simpl.
  - intros [[= <- <-]|[]]. by left.
  - destruct (String.eqb_spec k0 k) as [->|]; simpl.
    + intros [[= <- <-]|Hin]; [by left | right; by right].
    + intros [Heq|Hin]; [right; by left|].
      destruct (IH Hin); [by left | right; by right].
Qed.

Lemma dict_get_In d k v : dict_get d k = Some v -> In (k, v) d.
Proof.
  induction d as [|[k0 v0] d IH]; simpl; [done|].
  destruct (String.eqb_spec k0 k) as [->|]; [intros [= ->]; by left|].
  intros Hget. right. by apply IH.
Qed.

End RegistryLemmas.

Section AutoFilterKeyLemmas.
Context `{DataLayer}.
Variables (target : Target) (prefix : string).

Lemma prefix_append (s : string) : String.prefix prefix (prefix +:+ s) = true.
Proof.
  induction prefix as [|c p IH]; [by destruct s|].
  rewrite append_cons. simpl. by destruct (ascii_dec c c).
Qed.

Lemma derived_key_prefix (item : Descriptor) (k : string) :
  In k (derived_keys prefix item) -> String.prefix prefix k = true.
Proof.
  unfold derived_keys. intros [<-|Hin]; [apply prefix_append|].
  apply in_app_iff in Hin as [Hlike|Hrest].
  - destruct (has_String_type item); simpl in Hlike; [|done].
    destruct Hlike as [<-|[]]. rewrite append_assoc. apply prefix_append.
  - simpl in Hrest. destruct Hrest as [<-|[<-|[<-|[<-|[]]]]];
      rewrite append_assoc; apply prefix_append.
Qed.

(** The keys one turn of the loop adds are the derived keys of its field. *)
Lemma auto_filters_item_contains (ret : pydict Builder) (item : Descriptor)
  (k : string) :
  dict_contains (CRUDView.auto_filters_item target prefix ret item) k = true
  <-> dict_contains ret k = true \/ In k (derived_keys prefix item).
Proof.
  unfold CRUDView.auto_filters_item, derived_keys.
  destruct (has_String_type item); simpl;
    rewrite !dict_contains_set, !orb_true_iff, !String.eqb_eq; tauto.
Qed.

Lemma auto_filters_fold_contains (items : list Descriptor)
  (ret : pydict Builder) (k : string) :
  dict_contains (fold_left (CRUDView.auto_filters_item target prefix) items ret) k
  = true
  <-> dict_contains ret k = true
      \/ exists item, In item items /\ In k (derived_keys prefix item).
Proof.
  revert ret. induction items as [|item items IH]; intros ret; simpl.
  - split; [by left | by intros [|(? & [] & _)]].
  - rewrite IH, auto_filters_item_contains. split.
    + intros [[Hret|Hitem]|(other & Hother & Hk)]; eauto.
    + intros [Hret|(other & [<-|Hother] & Hk)]; eauto.
Qed.

(** Every value one turn of the loop stores is a comparison or a match on
    its field. *)
Lemma auto_filters_item_values (ret : pydict Builder) (item : Descriptor)
  (k : string) (b : Builder) :
  In (k, b) (CRUDView.auto_filters_item target prefix ret item) ->
  In (k, b) ret
  \/ (exists op, b = CRUDView.compare_with target op item)
  \/ b = CRUDView.ilike_with item.
Proof.
  unfold CRUDView.auto_filters_item.
  destruct (has_String_type item);
    repeat (intros [[_ ->]|Hin]%dict_set_In; [eauto|revert Hin]); eauto.
Qed.

Lemma auto_filters_fold_values (items : list Descriptor) (ret : pydict Builder)
  (k : string) (b : Builder) :
  In (k, b) (fold_left (CRUDView.auto_filters_item target prefix) items ret) ->
  In (k, b) ret
  \/ exists item,
       In item items
       /\ ((exists op, b = CRUDView.compare_with target op item)
           \/ b = CRUDView.ilike_with item).
Proof.
  revert ret. induction items as [|item items IH]; intros ret; simpl;
    [by left|].
  intros [Hitem|(other & Hother & Hb)]%IH.
  - apply auto_filters_item_values in Hitem as [Hret|Hb]; [by left|].
    right. exists item. eauto.
  - right. exists other. eauto.
Qed.

End AutoFilterKeyLemmas.

(** X8. Collisions or not, the keys of the mapping [auto_filters] returns
    are exactly the names derived from the mapped column attributes of the
    target - [f], [f_gt], [f_ge], [f_lt], [f_le], and [f_like] for a [String]
    column: relationships, hybrids and proxies contribute none, and every key
    starts with the prefix. *)
Theorem auto_filters_key_set `{DataLayer} (cls_target_type : Target)
  (target : option Target) (prefix : string) (k : string) :
  let t := default cls_target_type target in
  let fields := filter (fun item => is_column_attribute item = true)
                       (all_orm_descriptors t) in
  let registry := CRUDView.auto_filters cls_target_type target prefix in
  (dict_contains registry k = true
   <-> exists f, In f fields /\ In k (derived_keys prefix f))
  /\ (dict_contains registry k = true -> String.prefix prefix k = true).
Proof.
  intros t fields registry.
  assert (dict_contains registry k = true
          <-> exists f, In f fields /\ In k (derived_keys prefix f)) as Hiff.
  { subst registry. unfold CRUDView.auto_filters. fold t. fold fields.
    rewrite auto_filters_fold_contains. split; [|by right].
    by intros [|]. }
  split; [exact Hiff|].
  intros (f & _ & Hk)%Hiff. by eapply derived_key_prefix.
Qed.

(** X9. Applied to any raw value, a builder of the mapping [auto_filters]
    returns exactly one criterion, or raises what [coerce_value] raised for
    the first column of a mapped column attribute: it never returns [None]
    or a sequence, and a value that cannot be coerced is not ignored. *)
Theorem auto_filter_builders `{DataLayer} (cls_target_type : Target)
  (target : option Target) (prefix : string) (k : string) (builder : Builder)
  (x : string) :
  let t := default cls_target_type target in
  let fields := filter (fun item => is_column_attribute item = true)
                       (all_orm_descriptors t) in
  dict_get (CRUDView.auto_filters cls_target_type target prefix) k
  = Some builder ->
  (exists c, builder x = ok (FSingle c))
  \/ (exists e f column columns,
        In f fields
        /\ property f = Some (ColumnProperty column columns)
        /\ coerce_value t column x false = raise e
        /\ builder x = raise e).
Proof.
  intros t fields Hget%dict_get_In.
  unfold CRUDView.auto_filters in Hget. fold t in Hget. fold fields in Hget.
  apply auto_filters_fold_values in Hget as [[]|(f & Hf & Hb)].
  assert (exists column columns, property f = Some (ColumnProperty column columns))
    as (column & columns & Hproperty).
  { apply list_elem_of_In, list_elem_of_filter in Hf as [Hcolumn _].
    unfold is_column_attribute in Hcolumn.
    destruct (property f) as [[column columns| | |]|];
      rewrite ?andb_false_r in Hcolumn; try done. eauto. }
  destruct Hb as [[op ->]| ->].
  - unfold CRUDView.compare_with, CRUDView.coerce_func. rewrite Hproperty.
    destruct (coerce_value t column x false) as [e|v] eqn:Hcoerce; simpl.
    + right. by exists e, f, column, columns.
    + left. eauto.
  - left. unfold CRUDView.ilike_with. eauto.
Qed.

Lemma auto_filter_builders_witness :
  (exists c,
     CRUDView.compare_with (H := Demo.committing) Demo.Person OpGt Demo.age_ "2x6"
     = ok (FSingle c))
  \/ (exists e f column columns,
        In f (filter (fun item => is_column_attribute item = true)
                     (all_orm_descriptors Demo.Person))
        /\ property f = Some (ColumnProperty column columns)
        /\ Demo.coerce Demo.Person column "2x6" false = raise e
        /\ CRUDView.compare_with (H := Demo.committing) Demo.Person OpGt
             Demo.age_ "2x6" = raise e).
Proof.
  apply (auto_filter_builders (H := Demo.committing) Demo.Person None ""
           "age_gt"
           (CRUDView.compare_with (H := Demo.committing) Demo.Person OpGt
              Demo.age_) "2x6").
  reflexivity.
Defined.
